(** * Muncoordinated: recovery of caucus fields, the speaker queue and the
    delegate cookie check

    A shallow embedding of the derived-state code of the browser client:
    [recoverUnit], [recoverDuration], [DEFAULT_CAUCUS] and the [Caucus]
    component (components/Caucus.tsx), [parseFlagName] and
    [nameToMemberOption] (components/Member.tsx), the [Login] component
    (components/Auth.tsx), and [getNation], [getIdOfCookieNation],
    [setStance] and the [CaucusQueuer] component
    (components/caucus/CaucusQueuer.tsx).

    JavaScript numbers are IEEE-754 binary64 values, here the kernel's
    primitive floats; records read from the realtime database are finite maps
    from keys to values; an optional field [f?: T] is an [option T] whose
    [None] is JavaScript's [undefined]. *)

From Stdlib Require Import Floats.PrimFloat.
From stdpp Require Import gmap strings list.

(** ** The JavaScript values the code tests and compares *)
Module Js.

Abbreviation number := float.

(** ToBoolean on a number: false for +0, -0 and NaN, true otherwise. *)
Definition ToBoolean_number (d : number) : bool :=
  negb (PrimFloat.eqb d 0%float) && PrimFloat.eqb d d.

(** The primitive values a cookie getter or a database field can hold. *)
Inductive value : Type :=
  | undefined
  | null
  | boolean (b : bool)
  | num (d : number)
  | str (s : string).

(** ToBoolean: what [if (v)], [v ? a : b], [!v] and [v || w] test. *)
Definition ToBoolean (v : value) : bool :=
  match v with
  | undefined | null => false
  | boolean b => b
  | num d => ToBoolean_number d
  | str s => negb (bool_decide (s = ""))
  end.

(** [a === b] on primitive values. *)
Definition strict_eq (a b : value) : bool :=
  match a, b with
  | undefined, undefined => true
  | null, null => true
  | boolean x, boolean y => bool_decide (x = y)
  | num x, num y => PrimFloat.eqb x y
  | str x, str y => bool_decide (x = y)
  | _, _ => false
  end.

(** An optional string field [f?: string] read as a value. *)
Definition of_optional_string (o : option string) : value :=
  match o with
  | Some s => str s
  | None => undefined
  end.

(** [Number(x)] for [x : number | undefined]: [Number(undefined)] is NaN. *)
Definition Number (x : option number) : number :=
  match x with
  | Some d => d
  | None => nan
  end.

Inductive error : Type :=
  | TypeError.

(** The property names a plain object inherits from [Object.prototype]:
    [o[k]] for such a [k] that is no own property of [o] is the inherited
    function (for [__proto__], [Object.prototype] itself), not
    [undefined]. *)
Definition Object_prototype_keys : list string :=
  ["constructor"; "__defineGetter__"; "__defineSetter__"; "hasOwnProperty";
   "__lookupGetter__"; "__lookupSetter__"; "isPrototypeOf";
   "propertyIsEnumerable"; "toString"; "valueOf"; "__proto__"; "toLocaleString"].

(** How the evaluation of a function body ends: it returns a value of the
    declared type, it throws, or it takes the value a record inherits from
    [Object.prototype] under [key] for data of the declared type. A function
    that returns what it read then returns that inherited value; what a
    caller goes on to do with such a value is outside the typed model. *)
Inductive completion (A : Type) : Type :=
  | Returned (a : A)
  | Threw (e : error)
  | Untyped (key : string).

Arguments Returned {A} a.
Arguments Threw {A} e.
Arguments Untyped {A} key.

End Js.

(** ** components/TimerSetter.tsx (imported declarations) *)
Module TimerSetter.

(** [enum Unit]: the two members the sources name. *)
Inductive Unit : Type :=
  | Minutes
  | Seconds.

#[global] Instance Unit_eq_dec : EqDecision Unit.
Proof. solve_decision. Defined.

End TimerSetter.

(** ** components/caucus/SpeakerFeed.tsx (imported declarations) *)
Module SpeakerFeed.

Inductive Stance : Type :=
  | For
  | Neutral
  | Against.

(** [SpeakerEvent], with the fields of the object literal in [setStance]. *)
Record SpeakerEvent : Type := {
  who : string;
  stance : Stance;
  duration : Js.number
}.

End SpeakerFeed.

(** ** components/Timer.tsx (imported declarations) *)
Module Timer.

(** A timer object: its fields by name. [DEFAULT_TIMER] is a constant of
    Timer.tsx; the definitions that use it take it as a parameter, and the
    object spread [{ ...DEFAULT_TIMER, remaining: r }] is an insertion. *)
Abbreviation TimerData := (gmap string Js.value).

End Timer.

(** ** components/Caucus.tsx: data and recovery functions *)
Module Caucus.
Import TimerSetter SpeakerFeed.

Definition DEFAULT_CAUCUS_TIME_SECONDS : Js.number := (10 * 60)%float.
Definition DEFAULT_SPEAKER_TIME_SECONDS : Js.number := (1 * 60)%float.

Inductive CaucusStatus : Type :=
  | Open
  | Closed.

Record CaucusData : Type := {
  name : string;
  topic : string;
  status : CaucusStatus;
  speakerTimer : Timer.TimerData;
  speakerDuration : option Js.number;
  speakerUnit : option Unit;
  caucusTimer : Timer.TimerData;
  queueIsPublic : option bool;
  speaking : option SpeakerEvent;
  queue : option (gmap string SpeakerEvent);
  history : option (gmap string SpeakerEvent)
}.

Section Recover.

(** ToBoolean of the runtime value of a [Unit] member. The enum's
    initialisers are declared in TimerSetter.tsx: a member initialised to a
    non-empty string or a non-zero number is truthy. *)
Variable ToBoolean_Unit : Unit -> bool.

(** [caucus ? (caucus.speakerUnit || Unit.Seconds) : Unit.Seconds] *)
Definition recoverUnit (caucus : option CaucusData) : Unit :=
  match caucus with
  | Some c =>
      match speakerUnit c with
      | Some u => if ToBoolean_Unit u then u else Seconds
      | None => Seconds
      end
  | None => Seconds
  end.

End Recover.

(** [caucus ? (caucus.speakerDuration ? caucus.speakerDuration : undefined)
           : undefined] *)
Definition recoverDuration (caucus : option CaucusData) : option Js.number :=
  match caucus with
  | Some c =>
      match speakerDuration c with
      | Some d => if Js.ToBoolean_number d then Some d else None
      | None => None
      end
  | None => None
  end.

Section Default.

Variable DEFAULT_TIMER : Timer.TimerData.

Definition DEFAULT_CAUCUS : CaucusData := {|
  name := "untitled caucus";
  topic := "";
  status := Open;
  speakerTimer := <["remaining" := Js.num DEFAULT_SPEAKER_TIME_SECONDS]> DEFAULT_TIMER;
  speakerDuration := Some DEFAULT_SPEAKER_TIME_SECONDS;
  speakerUnit := Some Seconds;
  caucusTimer := <["remaining" := Js.num DEFAULT_CAUCUS_TIME_SECONDS]> DEFAULT_TIMER;
  queueIsPublic := Some false;
  speaking := None;
  queue := Some ∅;
  history := Some ∅
|}.

End Default.

End Caucus.

(** ** components/Member.tsx *)
Module Member.

Inductive Rank : Type :=
  | Veto
  | Standard
  | NGO
  | Observer.

Record MemberData : Type := {
  name : string;
  present : bool;
  rank : Rank;
  voting : bool;
  frozen : bool;
  authToken : option string
}.

(** [MemberOption] of constants.ts, with the fields of the object literal in
    [nameToMemberOption]. *)
Record MemberOption : Type := {
  key : string;
  value : string;
  flag : string;
  text : string
}.

Section Flags.

(** The country table of constants.ts, taken as a parameter. *)
Variable COUNTRY_OPTIONS : list MemberOption.

(** The built-in [String.prototype.toLowerCase], total on strings. *)
Variable toLowerCase : string -> string.

(** [new Set(COUNTRY_OPTIONS.map(x => x.text))] *)
Definition FLAG_NAME_SET : gset string :=
  list_to_set (text <$> COUNTRY_OPTIONS).

Definition parseFlagName (name : string) : string :=
  if bool_decide (name ∈ FLAG_NAME_SET) then toLowerCase name else "fm".

(** [COUNTRY_OPTIONS.filter(c => c.text === name)[0]] is [undefined] when
    the filter keeps nothing, hence the [option]. *)
Definition nameToMemberOption (name : string) : option MemberOption :=
  if bool_decide (name ∈ FLAG_NAME_SET)
  then head (filter (fun c => text c = name) COUNTRY_OPTIONS)
  else Some {| key := name; value := name; flag := "fm"; text := name |}.

End Flags.

End Member.

(** ** components/Committee.tsx (imported declarations) *)
Module Committee.

(** Modelled from the spec: [CommitteeData], declared in Committee.tsx,
    whose text is not available; a committee is the nested record
    "committee → caucus → speaker queue/timers", with the fields the sources
    read ([name], [topic]) and its members. *)
Record CommitteeData : Type := {
  name : string;
  topic : string;
  members : option (gmap string Member.MemberData);
  caucuses : option (gmap string Caucus.CaucusData)
}.

(** Modelled from the spec: [recoverCaucus], defined in Committee.tsx,
    whose text is not available; the caucus stored under [caucusID] in the
    committee's caucuses, [undefined] when the committee, its caucuses or
    that entry is missing. *)
Definition recoverCaucus (committee : option CommitteeData) (caucusID : string)
  : option Caucus.CaucusData :=
  match committee with
  | Some c => default ∅ (caucuses c) !! caucusID
  | None => None
  end.

End Committee.

(** ** components/Caucus.tsx: the component *)
Module CaucusComponent.

Record State : Type := {
  speakerTimer : Timer.TimerData;
  caucusTimer : Timer.TimerData;
  committee : option Committee.CommitteeData;
  committeeFref : list string;
  loading : bool;
  isOwner : bool
}.

(** What [render] returns: the container around [NotFound], or the tree
    [renderCaucus] builds from the component's state and the caucus. *)
Inductive Element : Type :=
  | NotFound (item id : string)
  | CaucusContainer (st : State) (caucusID : string) (caucus : option Caucus.CaucusData).

Definition renderCaucus (st : State) (caucusID : string)
  (caucus : option Caucus.CaucusData) : Element :=
  CaucusContainer st caucusID caucus.

Section Render.

(** [recoverCaucus] of Committee.tsx, the helper [render] finds the caucus
    with. *)
Variable recoverCaucus :
  option Committee.CommitteeData -> string -> option Caucus.CaucusData.

(** [caucusID] is [this.props.match.params.caucusID]. *)
Definition render (st : State) (caucusID : string) : Element :=
  let caucus := recoverCaucus (committee st) caucusID in
  if negb (loading st) && negb (bool_decide (is_Some caucus))
  then NotFound "caucus" caucusID
  else renderCaucus st caucusID caucus.

End Render.

End CaucusComponent.

(** ** The part of the firebase interface the sources use *)
Module Firebase.

(** [firebase.User], with the fields the sources read. *)
Record User : Type := {
  uid : string;
  email : option string
}.

(** A read the client leaves pending: the committees whose [creatorUid]
    equals [uid], read once
    ([ref('committees').orderByChild('creatorUid').equalTo(uid).once('value')]). *)
Inductive Request : Type :=
  | CommitteesByCreator (uid : string).

(** A write the client issues. [PushSet path v] is
    [ref.child(..).push().set(v)]: a new child of the node at [path], under a
    key the database generates, holding [v]. *)
Inductive Write (V : Type) : Type :=
  | PushSet (path : list string) (v : V).

Arguments PushSet {V} path v.

End Firebase.

(** ** components/Auth.tsx: the Login component *)
Module Auth.

Inductive Mode : Type :=
  | Login
  | CreateAccount
  | ForgotPassword.

(** [Error], and the [success] record that is "like Error". *)
Record Notice : Type := {
  name : option string;
  message : option string
}.

(** The handle [onAuthStateChanged] returns. *)
Inductive Unsubscribe : Type :=
  | unsubscribe_handle.

(** [user] is [undefined] until the first auth callback, then [null] or a
    user; [committees] is [undefined] until the committees query resolves. *)
Record State : Type := {
  user : option (option Firebase.User);
  email : string;
  password : string;
  error : option Notice;
  success : option Notice;
  loggingIn : bool;
  creating : bool;
  mode : Mode;
  resetting : bool;
  unsubscribe : option Unsubscribe;
  committees : option (gmap string Committee.CommitteeData)
}.

(** The state the constructor sets. *)
Definition initial_state : State := {|
  user := None;
  email := "";
  password := "";
  error := None;
  success := None;
  loggingIn := false;
  creating := false;
  mode := Login;
  resetting := false;
  unsubscribe := None;
  committees := None
|}.

(** [this.setState({ loggingIn: false, creating: false, user: user })] *)
Definition setState_auth (u : option Firebase.User) (st : State) : State := {|
  user := Some u;
  email := email st;
  password := password st;
  error := error st;
  success := success st;
  loggingIn := false;
  creating := false;
  mode := mode st;
  resetting := resetting st;
  unsubscribe := unsubscribe st;
  committees := committees st
|}.

(** [this.setState({ committees: c })] *)
Definition setState_committees (c : gmap string Committee.CommitteeData)
  (st : State) : State := {|
  user := user st;
  email := email st;
  password := password st;
  error := error st;
  success := success st;
  loggingIn := loggingIn st;
  creating := creating st;
  mode := mode st;
  resetting := resetting st;
  unsubscribe := unsubscribe st;
  committees := Some c
|}.

(** The synchronous part of [authStateChangedCallback]: the new state, and
    the query it leaves pending when a user is signed in. *)
Definition authStateChangedCallback (u : option Firebase.User) (st : State)
  : State * option Firebase.Request :=
  let st' := setState_auth u st in
  match u with
  | Some usr => (st', Some (Firebase.CommitteesByCreator (Firebase.uid usr)))
  | None => (st', None)
  end.

(** The continuation passed to [then]: [val] is [committees.val()], [None]
    when the query finds nothing;
    [this.setState({ committees: committees.val() || {} })]. *)
Definition committeesLoaded (val : option (gmap string Committee.CommitteeData))
  (st : State) : State :=
  setState_committees (match val with Some c => c | None => ∅ end) st.

(** The callback followed by the resolution of its query, [db] giving the
    value the database answers a request with. *)
Definition authStateChanged_resolved
  (db : Firebase.Request -> option (gmap string Committee.CommitteeData))
  (u : option Firebase.User) (st : State) : State :=
  match authStateChangedCallback u st with
  | (st', Some req) => committeesLoaded (db req) st'
  | (st', None) => st'
  end.

(** [this.setState({ f: x })] for the other fields: the field is replaced,
    the rest of the state is kept. *)
Definition set_email (x : string) (st : State) : State := {|
  user := user st;
  email := x;
  password := password st;
  error := error st;
  success := success st;
  loggingIn := loggingIn st;
  creating := creating st;
  mode := mode st;
  resetting := resetting st;
  unsubscribe := unsubscribe st;
  committees := committees st
|}.

Definition set_password (x : string) (st : State) : State := {|
  user := user st;
  email := email st;
  password := x;
  error := error st;
  success := success st;
  loggingIn := loggingIn st;
  creating := creating st;
  mode := mode st;
  resetting := resetting st;
  unsubscribe := unsubscribe st;
  committees := committees st
|}.

Definition set_error (x : option Notice) (st : State) : State := {|
  user := user st;
  email := email st;
  password := password st;
  error := x;
  success := success st;
  loggingIn := loggingIn st;
  creating := creating st;
  mode := mode st;
  resetting := resetting st;
  unsubscribe := unsubscribe st;
  committees := committees st
|}.

Definition set_success (x : option Notice) (st : State) : State := {|
  user := user st;
  email := email st;
  password := password st;
  error := error st;
  success := x;
  loggingIn := loggingIn st;
  creating := creating st;
  mode := mode st;
  resetting := resetting st;
  unsubscribe := unsubscribe st;
  committees := committees st
|}.

Definition set_loggingIn (x : bool) (st : State) : State := {|
  user := user st;
  email := email st;
  password := password st;
  error := error st;
  success := success st;
  loggingIn := x;
  creating := creating st;
  mode := mode st;
  resetting := resetting st;
  unsubscribe := unsubscribe st;
  committees := committees st
|}.

Definition set_creating (x : bool) (st : State) : State := {|
  user := user st;
  email := email st;
  password := password st;
  error := error st;
  success := success st;
  loggingIn := loggingIn st;
  creating := x;
  mode := mode st;
  resetting := resetting st;
  unsubscribe := unsubscribe st;
  committees := committees st
|}.

Definition set_mode (x : Mode) (st : State) : State := {|
  user := user st;
  email := email st;
  password := password st;
  error := error st;
  success := success st;
  loggingIn := loggingIn st;
  creating := creating st;
  mode := x;
  resetting := resetting st;
  unsubscribe := unsubscribe st;
  committees := committees st
|}.

Definition set_resetting (x : bool) (st : State) : State := {|
  user := user st;
  email := email st;
  password := password st;
  error := error st;
  success := success st;
  loggingIn := loggingIn st;
  creating := creating st;
  mode := mode st;
  resetting := x;
  unsubscribe := unsubscribe st;
  committees := committees st
|}.

Definition set_unsubscribe (x : option Unsubscribe) (st : State) : State := {|
  user := user st;
  email := email st;
  password := password st;
  error := error st;
  success := success st;
  loggingIn := loggingIn st;
  creating := creating st;
  mode := mode st;
  resetting := resetting st;
  unsubscribe := x;
  committees := committees st
|}.

(** The calls of the auth service the component makes. *)
Inductive AuthRequest : Type :=
  | SignInWithEmailAndPassword (email password : string)
  | CreateUserWithEmailAndPassword (email password : string)
  | SendPasswordResetEmail (email : string)
  | SignOut.

(** [login]: the state it sets at once and the call it makes, with the
    email and password of the state it was called in. *)
Definition login (st : State) : State * AuthRequest :=
  (set_loggingIn true st, SignInWithEmailAndPassword (email st) (password st)).

Definition login_then (st : State) : State := set_loggingIn false st.

Definition login_catch (err : Notice) (st : State) : State :=
  set_error (Some err) (set_loggingIn false st).

Definition createAccount (st : State) : State * AuthRequest :=
  (set_creating true st, CreateUserWithEmailAndPassword (email st) (password st)).

Definition createAccount_then (st : State) : State :=
  set_success
    (Some {| name := Some "Account created";
             message := Some "Your account was successfully created" |})
    (set_creating false st).

Definition createAccount_catch (err : Notice) (st : State) : State :=
  set_error (Some err) (set_creating false st).

Definition resetPassword (st : State) : State * AuthRequest :=
  (set_resetting true st, SendPasswordResetEmail (email st)).

(** [email] is the constant bound when [resetPassword] was called. *)
Definition resetPassword_then (email : string) (st : State) : State :=
  set_success
    (Some {| name := Some "Password reset";
             message := Some ("Check your inbox at " +:+ email
                              +:+ " for further instructions") |})
    (set_resetting false st).

Definition resetPassword_catch (err : Notice) (st : State) : State :=
  set_error (Some err) (set_resetting false st).

Definition logout (st : State) : State * AuthRequest := (st, SignOut).

Definition logout_catch (err : Notice) (st : State) : State :=
  set_error (Some err) st.

Definition dismissError (st : State) : State := set_error None st.

Definition dismissSuccess (st : State) : State := set_success None st.

Definition toLoginMode (st : State) : State :=
  set_mode Login (set_password "" st).

Definition toCreateAccountMode (st : State) : State :=
  set_mode CreateAccount (set_password "" st).

Definition toForgotPasswordMode (st : State) : State :=
  set_mode ForgotPassword (set_password "" st).

(** [e.currentTarget.value] is the argument. *)
Definition setEmail (value : string) (st : State) : State := set_email value st.

Definition setPassword (value : string) (st : State) : State := set_password value st.

(** [componentDidMount] stores the handle [onAuthStateChanged] returns. *)
Definition componentDidMount (st : State) : State :=
  set_unsubscribe (Some unsubscribe_handle) st.

(** What can happen to a mounted component: a handler is called, or a
    promise one of them left pending settles. *)
Inductive Event : Type :=
  | DidMount
  | AuthStateChanged (u : option Firebase.User)
  | CommitteesLoaded (val : option (gmap string Committee.CommitteeData))
  | LoginCalled
  | LoginFulfilled
  | LoginRejected (err : Notice)
  | CreateAccountCalled
  | CreateAccountFulfilled
  | CreateAccountRejected (err : Notice)
  | ResetPasswordCalled
  | ResetPasswordFulfilled (email : string)
  | ResetPasswordRejected (err : Notice)
  | LogoutCalled
  | LogoutRejected (err : Notice)
  | DismissError
  | DismissSuccess
  | ToLoginMode
  | ToCreateAccountMode
  | ToForgotPasswordMode
  | SetEmail (value : string)
  | SetPassword (value : string).

Definition step (st : State) (e : Event) : State :=
  match e with
  | DidMount => componentDidMount st
  | AuthStateChanged u => (authStateChangedCallback u st).1
  | CommitteesLoaded val => committeesLoaded val st
  | LoginCalled => (login st).1
  | LoginFulfilled => login_then st
  | LoginRejected err => login_catch err st
  | CreateAccountCalled => (createAccount st).1
  | CreateAccountFulfilled => createAccount_then st
  | CreateAccountRejected err => createAccount_catch err st
  | ResetPasswordCalled => (resetPassword st).1
  | ResetPasswordFulfilled email => resetPassword_then email st
  | ResetPasswordRejected err => resetPassword_catch err st
  | LogoutCalled => (logout st).1
  | LogoutRejected err => logout_catch err st
  | DismissError => dismissError st
  | DismissSuccess => dismissSuccess st
  | ToLoginMode => toLoginMode st
  | ToCreateAccountMode => toCreateAccountMode st
  | ToForgotPasswordMode => toForgotPasswordMode st
  | SetEmail value => setEmail value st
  | SetPassword value => setPassword value st
  end.

(** The state after a sequence of events, oldest first. *)
Definition run (es : list Event) (st : State) : State := foldl step st es.

(** *** What the component renders *)

Inductive NoticeMessage : Type :=
  | LoginNotice
  | CreateAccountNotice.

(** [renderNotice]: [undefined] when a user is signed in and in
    ForgotPassword mode. *)
Definition renderNotice (st : State) : option NoticeMessage :=
  match user st with
  | Some (Some _) => None
  | _ =>
      match mode st with
      | Login => Some LoginNotice
      | CreateAccount => Some CreateAccountNotice
      | ForgotPassword => None
      end
  end.

(** The children of the login form. *)
Inductive Widget : Type :=
  | EmailInput (value : string)
  | PasswordInput (value : string)
  | SuccessMessage (header content : option string)
  | ErrorMessage (header content : option string)
  | LogInButton (disabled loading : bool)
  | CreateAccountButton
  | ForgotPasswordLink
  | SendResetEmailButton (disabled loading : bool)
  | RealCreateAccountButton (disabled loading : bool)
  | CancelButton.

Record LoginForm : Type := {
  form_error : bool;
  form_success : bool;
  form_loading : bool;
  form_children : list Widget
}.

(** [succ ? succ.name : ''] and [succ ? succ.message : '']. *)
Definition renderSuccess (st : State) : Widget :=
  match success st with
  | Some succ => SuccessMessage (name succ) (message succ)
  | None => SuccessMessage (Some "") (Some "")
  end.

Definition renderError (st : State) : Widget :=
  match error st with
  | Some err => ErrorMessage (name err) (message err)
  | None => ErrorMessage (Some "") (Some "")
  end.

(** [{cond && element}] renders the element when [cond] holds and nothing
    otherwise. *)
Definition when (cond : bool) (w : Widget) : list Widget :=
  if cond then [w] else [].

Definition is_mode (m : Mode) (st : State) : bool :=
  match m, mode st with
  | Login, Login | CreateAccount, CreateAccount | ForgotPassword, ForgotPassword => true
  | _, _ => false
  end.

Definition renderLogin (st : State) : LoginForm :=
  let no_email := negb (Js.ToBoolean (Js.str (email st))) in
  let no_password := negb (Js.ToBoolean (Js.str (password st))) in
  {| form_error := bool_decide (is_Some (error st));
     form_success := bool_decide (is_Some (success st));
     form_loading := bool_decide (user st = None);
     form_children :=
       [EmailInput (email st)]
       ++ when (negb (is_mode ForgotPassword st)) (PasswordInput (password st))
       ++ [renderSuccess st]
       ++ [renderError st]
       ++ when (is_mode Login st) (LogInButton (no_email || no_password) (loggingIn st))
       ++ when (is_mode Login st) CreateAccountButton
       ++ when (is_mode Login st) ForgotPasswordLink
       ++ when (is_mode ForgotPassword st) (SendResetEmailButton no_email (resetting st))
       ++ when (is_mode CreateAccount st)
            (RealCreateAccountButton (no_email || no_password) (creating st))
       ++ when (negb (is_mode Login st)) CancelButton |}.

(** An item of the list of committees: its key, its link, and the name and
    topic shown. *)
Record CommitteeItem : Type := {
  item_key : string;
  item_href : string;
  item_name : string;
  item_topic : string
}.

Definition renderCommittee (committeeID : string) (committee : Committee.CommitteeData)
  : CommitteeItem := {|
  item_key := committeeID;
  item_href := "/committees/" +:+ committeeID;
  item_name := Committee.name committee;
  item_topic := Committee.topic committee
|}.

(** [owned.map(k => renderCommittee(k, defaulted[k]))], [owned] being the
    keys of [committees || {}]: one item for each key and the committee
    stored under it. A finite map does not record the order in which
    JavaScript enumerates the keys of the object, so the order of the items
    here is that of the map and carries no meaning; what is proved of the
    list does not depend on it. *)
Definition renderCommittees (st : State) : list CommitteeItem :=
  let defaulted := default ∅ (committees st) in
  (fun kv => renderCommittee kv.1 kv.2) <$> map_to_list defaulted.

Inductive CommitteesContent : Type :=
  | CommitteeList (items : list CommitteeItem)
  | Loading.

Record LoggedInCard : Type := {
  card_header : option string;
  card_committees : CommitteesContent;
  card_create : bool
}.

(** [allowNewCommittee] is the optional property of the component. *)
Definition renderLoggedIn (allowNewCommittee : option bool) (u : Firebase.User)
  (st : State) : LoggedInCard := {|
  card_header := Firebase.email u;
  card_committees :=
    match committees st with
    | Some _ => CommitteeList (renderCommittees st)
    | None => Loading
    end;
  card_create := default false allowNewCommittee
|}.

Inductive LoginBody : Type :=
  | LoggedIn (card : LoggedInCard)
  | LoggedOut (form : LoginForm).

Definition render (allowNewCommittee : option bool) (st : State)
  : option NoticeMessage * LoginBody :=
  (renderNotice st,
   match user st with
   | Some (Some u) => LoggedIn (renderLoggedIn allowNewCommittee u st)
   | _ => LoggedOut (renderLogin st)
   end).

End Auth.

(** ** components/caucus/CaucusQueuer.tsx *)
Module CaucusQueuer.
Import TimerSetter SpeakerFeed.

Record Props : Type := {
  caucus : option Caucus.CaucusData;
  members : option (gmap string Member.MemberData);
  caucusFref : list string
}.

Section Cookies.

(** [getCookie] of cookie.ts: the cookie state, read by name. *)
Variable getCookie : string -> Js.value.

(** [getID] of utils.ts, as the property key its result is used as in
    [members[id]]. *)
Variable getID : gmap string Member.MemberData -> Js.value -> string.

(** [members[id]] is the own property [id] of the record when there is one.
    When there is none and [id] is a name of [Object.prototype], it is the
    inherited value, whose [authToken] is [undefined]: the function returns
    that value when the authToken cookie is [undefined] too, and null
    otherwise. For any other [id] it is [undefined], and reading its
    [.authToken] throws a TypeError. *)
Definition getNation (props : Props) : Js.completion (option Member.MemberData) :=
  match members props with
  | Some ms =>
      let nation := getCookie "nation" in
      if Js.ToBoolean nation then
        let authToken := getCookie "authToken" in
        let id := getID ms nation in
        match ms !! id with
        | Some m =>
            if Js.strict_eq authToken (Js.of_optional_string (Member.authToken m))
            then Js.Returned (Some m)
            else Js.Returned None
        | None =>
            if bool_decide (id ∈ Js.Object_prototype_keys) then
              if Js.strict_eq authToken Js.undefined
              then Js.Untyped id
              else Js.Returned None
            else Js.Threw Js.TypeError
        end
      else Js.Returned None
  | None => Js.Returned None
  end.

End Cookies.

(** [getIdOfCookieNation]: the key of the first option whose text is the
    member's name. *)
Definition getIdOfCookieNation (name : option Member.MemberData)
  (members : option (list Member.MemberOption)) : option string :=
  match members, name with
  | Some ms, Some n =>
      Member.key <$> head (filter (fun element => Member.text element = Member.name n) ms)
  | _, _ => None
  end.

Section Handlers.

Variable ToBoolean_Unit : Unit -> bool.

(** What a click handler does: the database writes it issues. [setStance]
    calls no state setter, so its writes are all it changes. *)
Definition setStance (props : Props) (queueMember : option Member.MemberOption)
  (stance : Stance) : list (Firebase.Write SpeakerEvent) :=
  let caucus := caucus props in
  let duration := Js.Number (Caucus.recoverDuration caucus) in
  if Js.ToBoolean_number duration then
    match queueMember with
    | Some qm =>
        let newEvent := {|
          who := Member.text qm;
          stance := stance;
          duration :=
            if decide (Caucus.recoverUnit ToBoolean_Unit caucus = Minutes)
            then (duration * 60)%float
            else duration
        |} in
        [Firebase.PushSet (caucusFref props ++ ["queue"]) newEvent]
    | None => []
    end
  else [].

End Handlers.

(** [setMemberManual(value)] calls [setQueueMember] with
    [memberOptions.filter(c => c.value === value)[0]], which is [undefined]
    when no option has that value. *)
Definition setMemberManual (memberOptions : list Member.MemberOption)
  (value : string) : option Member.MemberOption :=
  head (filter (fun c => Member.value c = value) memberOptions).

(** What the component hands to the widgets it renders. *)
Record View : Type := {
  dropdownValue : option string;
  loading : bool;
  dropdownError : bool;
  unitValue : Unit;
  durationValue : option string;
  indeterminate : bool;
  checked : bool;
  disableButtons : bool
}.

Section Component.

Variable getCookie : string -> Js.value.
Variable getID : gmap string Member.MemberData -> Js.value -> string.
Variable ToBoolean_Unit : Unit -> bool.

(** The built-in [Number.prototype.toString]. *)
Variable toString : Js.number -> string.

(** The function component, up to the element it returns: the view, and the
    call of [setQueueMember] it makes while rendering, if any ([Some x] for
    [setQueueMember(x)]). [memberOptions] is
    [membersToPresentOptions(members)], [queueMember] the state of the
    hook. When [getNation] hands back a value inherited from
    [Object.prototype] the component goes on with it in place of a member;
    that run is left as [Js.Untyped]. *)
Definition CaucusQueuer (memberOptions : list Member.MemberOption)
  (props : Props) (queueMember : option Member.MemberOption)
  : Js.completion (View * option (option Member.MemberOption)) :=
  match getNation getCookie getID props with
  | Js.Threw e => Js.Threw e
  | Js.Untyped k => Js.Untyped k
  | Js.Returned cookieNation =>
      let cookieNationKey := getIdOfCookieNation cookieNation (Some memberOptions) in
      let duration := Caucus.recoverDuration (caucus props) in
      let disableButtons :=
        negb (bool_decide (is_Some queueMember))
        || negb (match duration with Some d => Js.ToBoolean_number d | None => false end) in
      let update :=
        match queueMember with
        | None =>
            match cookieNationKey with
            | Some k =>
                if Js.ToBoolean (Js.str k)
                then Some (setMemberManual memberOptions k)
                else None
            | None => None
            end
        | Some _ => None
        end in
      Js.Returned
        ({| dropdownValue := Member.value <$> queueMember;
            loading := negb (bool_decide (is_Some (caucus props)));
            dropdownError := negb (bool_decide (is_Some queueMember));
            unitValue := Caucus.recoverUnit ToBoolean_Unit (caucus props);
            durationValue :=
              match duration with
              | Some d => if Js.ToBoolean_number d then Some (toString d) else None
              | None => None
              end;
            indeterminate := negb (bool_decide (is_Some (caucus props)));
            checked :=
              match caucus props with
              | Some c =>
                  match Caucus.queueIsPublic c with
                  | Some b => if b then b else false
                  | None => false
                  end
              | None => false
              end;
            disableButtons := disableButtons |},
         update)
  end.

End Component.

End CaucusQueuer.

(** ** components/Caucus.tsx: the component's callbacks and what it renders *)
Module CaucusView.
Import TimerSetter SpeakerFeed.

(** The state the constructor sets, [committeeID] being
    [match.params.committeeID]. *)
Definition initial_state (DEFAULT_TIMER : Timer.TimerData) (committeeID : string)
  : CaucusComponent.State := {|
  CaucusComponent.speakerTimer := Caucus.speakerTimer (Caucus.DEFAULT_CAUCUS DEFAULT_TIMER);
  CaucusComponent.caucusTimer := Caucus.caucusTimer (Caucus.DEFAULT_CAUCUS DEFAULT_TIMER);
  CaucusComponent.committee := None;
  CaucusComponent.committeeFref := ["committees"; committeeID];
  CaucusComponent.loading := true;
  CaucusComponent.isOwner := false
|}.

(** [this.setState({ committee: val, loading: false })] *)
Definition setState_committee (val : option Committee.CommitteeData)
  (st : CaucusComponent.State) : CaucusComponent.State := {|
  CaucusComponent.speakerTimer := CaucusComponent.speakerTimer st;
  CaucusComponent.caucusTimer := CaucusComponent.caucusTimer st;
  CaucusComponent.committee := val;
  CaucusComponent.committeeFref := CaucusComponent.committeeFref st;
  CaucusComponent.loading := false;
  CaucusComponent.isOwner := CaucusComponent.isOwner st
|}.

(** [this.setState({ isOwner: b })] *)
Definition setState_isOwner (b : bool) (st : CaucusComponent.State)
  : CaucusComponent.State := {|
  CaucusComponent.speakerTimer := CaucusComponent.speakerTimer st;
  CaucusComponent.caucusTimer := CaucusComponent.caucusTimer st;
  CaucusComponent.committee := CaucusComponent.committee st;
  CaucusComponent.committeeFref := CaucusComponent.committeeFref st;
  CaucusComponent.loading := CaucusComponent.loading st;
  CaucusComponent.isOwner := b
|}.

Definition setSpeakerTimer (timer : Timer.TimerData) (st : CaucusComponent.State)
  : CaucusComponent.State := {|
  CaucusComponent.speakerTimer := timer;
  CaucusComponent.caucusTimer := CaucusComponent.caucusTimer st;
  CaucusComponent.committee := CaucusComponent.committee st;
  CaucusComponent.committeeFref := CaucusComponent.committeeFref st;
  CaucusComponent.loading := CaucusComponent.loading st;
  CaucusComponent.isOwner := CaucusComponent.isOwner st
|}.

Definition setCaucusTimer (timer : Timer.TimerData) (st : CaucusComponent.State)
  : CaucusComponent.State := {|
  CaucusComponent.speakerTimer := CaucusComponent.speakerTimer st;
  CaucusComponent.caucusTimer := timer;
  CaucusComponent.committee := CaucusComponent.committee st;
  CaucusComponent.committeeFref := CaucusComponent.committeeFref st;
  CaucusComponent.loading := CaucusComponent.loading st;
  CaucusComponent.isOwner := CaucusComponent.isOwner st
|}.

(** What can happen to a mounted component: the database calls back with a
    snapshot ([None] for a null snapshot, [Some val] for one whose [val()]
    is [val]) while [currentUser] is the user signed in, or a timer reports
    a change. *)
Inductive Event : Type :=
  | Snapshot (snapshot : option (option Committee.CommitteeData))
      (currentUser : option Firebase.User)
  | SpeakerTimerChanged (timer : Timer.TimerData)
  | CaucusTimerChanged (timer : Timer.TimerData).

Section Callbacks.

(** [isOwner] of utils.ts. *)
Variable isOwner : option Committee.CommitteeData -> Firebase.User -> bool.

(** Whether React defers the first [setState] of [firebaseCallback] past the
    reading of [this.state.committee] that follows it: it does when it
    batches the updates of a callback, and applies it at once otherwise. *)
Variable batched : bool.

Definition firebaseCallback (snapshot : option (option Committee.CommitteeData))
  (currentUser : option Firebase.User) (st : CaucusComponent.State)
  : CaucusComponent.State :=
  let st1 :=
    match snapshot with
    | Some val => setState_committee val st
    | None => st
    end in
  match currentUser with
  | Some user =>
      setState_isOwner
        (isOwner (CaucusComponent.committee (if batched then st else st1)) user) st1
  | None => st1
  end.

Definition step (st : CaucusComponent.State) (e : Event) : CaucusComponent.State :=
  match e with
  | Snapshot snapshot currentUser => firebaseCallback snapshot currentUser st
  | SpeakerTimerChanged timer => setSpeakerTimer timer st
  | CaucusTimerChanged timer => setCaucusTimer timer st
  end.

(** The state after a sequence of events, oldest first. *)
Definition run (es : list Event) (st : CaucusComponent.State) : CaucusComponent.State :=
  foldl step st es.

End Callbacks.

(** The values of the snapshots among the events, oldest first. *)
Definition snapshot_values (es : list Event) : list (option Committee.CommitteeData) :=
  omap (fun e => match e with Snapshot (Some val) _ => Some val | _ => None end) es.

Definition recoverCaucusFref (st : CaucusComponent.State) (caucusID : string)
  : list string :=
  CaucusComponent.committeeFref st ++ ["caucuses"; caucusID].

(** The properties [renderCaucus] gives a [Timer]. *)
Record TimerProps : Type := {
  timer_name : string;
  timerFref : list string;
  timer_key : string;
  toggleKeyCode : nat;
  defaultUnit : Unit;
  defaultDuration : Js.number;
  timer_isOwner : bool
}.

(** What [renderHeader] shows. *)
Record Header : Type := {
  header_status : Caucus.CaucusStatus;
  header_name : string;
  header_topic : string;
  header_loading : bool
}.

Definition renderHeader (caucus : option Caucus.CaucusData) : Header := {|
  header_status := match caucus with Some c => Caucus.status c | None => Caucus.Open end;
  header_name := match caucus with Some c => Caucus.name c | None => "" end;
  header_topic := match caucus with Some c => Caucus.topic c | None => "" end;
  header_loading := negb (bool_decide (is_Some caucus))
|}.

(** The panels of the two columns. *)
Inductive Panel : Type :=
  | NowSpeaking (entryData : option SpeakerEvent) (fref : list string)
      (speakerTimer : Timer.TimerData) (owner : bool)
  | Queuer (props : CaucusQueuer.Props) (isOwner : bool)
  | NextSpeaking (caucus : option Caucus.CaucusData) (fref : list string)
      (speakerTimer : Timer.TimerData) (autoNextSpeaker owner : bool)
  | SpeakerTimer (props : TimerProps)
  | CaucusTimer (props : TimerProps).

(** The settings [recoverSettings(committee)] returns, as the conditions
    [renderCaucus] tests. *)
Record Settings : Type := {
  autoNextSpeaker : bool;
  timersInSeparateColumns : bool;
  moveQueueUp : bool
}.

Record CaucusPage : Type := {
  page_title : string;
  page_header : Header;
  page_columns : list Panel * list Panel
}.

Section RenderCaucus.

Variable ToBoolean_Unit : Unit -> bool.

(** [recoverMembers] and [recoverSettings] of Committee.tsx. *)
Variable recoverMembers :
  option Committee.CommitteeData -> option (gmap string Member.MemberData).
Variable recoverSettings : option Committee.CommitteeData -> Settings.

Definition renderedSpeakerTimer (st : CaucusComponent.State) (caucusID : string)
  (caucus : option Caucus.CaucusData) : TimerProps := {|
  timer_name := "Speaker timer";
  timerFref := recoverCaucusFref st caucusID ++ ["speakerTimer"];
  timer_key := caucusID +:+ "speakerTimer";
  toggleKeyCode := 83;
  defaultUnit := Caucus.recoverUnit ToBoolean_Unit caucus;
  defaultDuration :=
    match Caucus.recoverDuration caucus with
    | Some d => if Js.ToBoolean_number d then d else 60%float
    | None => 60%float
    end;
  timer_isOwner := CaucusComponent.isOwner st
|}.

Definition renderedCaucusTimer (st : CaucusComponent.State) (caucusID : string)
  : TimerProps := {|
  timer_name := "Caucus timer";
  timerFref := recoverCaucusFref st caucusID ++ ["caucusTimer"];
  timer_key := caucusID +:+ "caucusTimer";
  toggleKeyCode := 67;
  defaultUnit := Minutes;
  defaultDuration := 10%float;
  timer_isOwner := CaucusComponent.isOwner st
|}.

Definition renderedCaucusQueuer (st : CaucusComponent.State) (caucusID : string)
  (caucus : option Caucus.CaucusData) : CaucusQueuer.Props := {|
  CaucusQueuer.caucus := caucus;
  CaucusQueuer.members := recoverMembers (CaucusComponent.committee st);
  CaucusQueuer.caucusFref := recoverCaucusFref st caucusID
|}.

Definition renderNowSpeaking (st : CaucusComponent.State) (caucusID : string)
  (caucus : option Caucus.CaucusData) : Panel :=
  NowSpeaking (caucus ≫= Caucus.speaking)
    (recoverCaucusFref st caucusID ++ ["speaking"])
    (CaucusComponent.speakerTimer st) (CaucusComponent.isOwner st).

(** [{cond && panel}] renders the panel when [cond] holds. *)
Definition when (cond : bool) (p : Panel) : list Panel :=
  if cond then [p] else [].

(** [renderCaucus]: the title, the header and the two columns of the grid.
    An undefined caucus prints as "undefined" in the title. *)
Definition renderCaucus (st : CaucusComponent.State) (caucusID : string)
  (caucus : option Caucus.CaucusData) : CaucusPage :=
  let settings := recoverSettings (CaucusComponent.committee st) in
  let speakerTimer := SpeakerTimer (renderedSpeakerTimer st caucusID caucus) in
  let caucusTimer := CaucusTimer (renderedCaucusTimer st caucusID) in
  let queuer :=
    Queuer (renderedCaucusQueuer st caucusID caucus) (CaucusComponent.isOwner st) in
  let nextSpeaking :=
    NextSpeaking caucus (recoverCaucusFref st caucusID)
      (CaucusComponent.speakerTimer st) (autoNextSpeaker settings)
      (CaucusComponent.isOwner st) in
  {| page_title :=
       match caucus with Some c => Caucus.name c | None => "undefined" end
       +:+ " - Muncoordinated";
     page_header := renderHeader caucus;
     page_columns :=
       if negb (timersInSeparateColumns settings) then
         ([renderNowSpeaking st caucusID caucus]
            ++ when (moveQueueUp settings) queuer
            ++ [nextSpeaking]
            ++ when (negb (moveQueueUp settings)) queuer,
          [speakerTimer; caucusTimer])
       else
         ([speakerTimer; renderNowSpeaking st caucusID caucus; nextSpeaking],
          [caucusTimer; queuer]) |}.

End RenderCaucus.

(** Which panel an element of a column is. *)
Inductive PanelKind : Type :=
  | IsNowSpeaking
  | IsQueuer
  | IsNextSpeaking
  | IsSpeakerTimer
  | IsCaucusTimer.

#[global] Instance PanelKind_eq_dec : EqDecision PanelKind.
Proof. solve_decision. Defined.

Definition kind (p : Panel) : PanelKind :=
  match p with
  | NowSpeaking _ _ _ _ => IsNowSpeaking
  | Queuer _ _ => IsQueuer
  | NextSpeaking _ _ _ _ _ => IsNextSpeaking
  | SpeakerTimer _ => IsSpeakerTimer
  | CaucusTimer _ => IsCaucusTimer
  end.

End CaucusView.

(** ** Concrete records and environments, for evaluating the functions *)
Module Samples.
Import TimerSetter SpeakerFeed.

(** An enum whose members are all truthy, as one initialised to non-empty
    strings is. *)
Definition truthy_members : Unit -> bool := fun _ => true.

(** A numeric enum [{ Minutes, Seconds }], whose first member is 0. *)
Definition numeric_members : Unit -> bool :=
  fun u => match u with Minutes => false | Seconds => true end.

Definition timer : Timer.TimerData :=
  <["elapsed" := Js.num 0%float]>
    (<["remaining" := Js.num 60%float]> (<["ticking" := Js.boolean false]> ∅)).

(** The default caucus with [speakerDuration] and [speakerUnit] as given. *)
Definition caucus_with (d : option Js.number) (u : option Unit) : Caucus.CaucusData := {|
  Caucus.name := Caucus.name (Caucus.DEFAULT_CAUCUS timer);
  Caucus.topic := Caucus.topic (Caucus.DEFAULT_CAUCUS timer);
  Caucus.status := Caucus.status (Caucus.DEFAULT_CAUCUS timer);
  Caucus.speakerTimer := Caucus.speakerTimer (Caucus.DEFAULT_CAUCUS timer);
  Caucus.speakerDuration := d;
  Caucus.speakerUnit := u;
  Caucus.caucusTimer := Caucus.caucusTimer (Caucus.DEFAULT_CAUCUS timer);
  Caucus.queueIsPublic := Caucus.queueIsPublic (Caucus.DEFAULT_CAUCUS timer);
  Caucus.speaking := Caucus.speaking (Caucus.DEFAULT_CAUCUS timer);
  Caucus.queue := Caucus.queue (Caucus.DEFAULT_CAUCUS timer);
  Caucus.history := Caucus.history (Caucus.DEFAULT_CAUCUS timer)
|}.

(** A caucus whose stored speaking time is 0. *)
Definition caucus_zero_duration : Caucus.CaucusData :=
  caucus_with (Some 0%float) (Some Seconds).

(** A caucus set to two minutes per speaker. *)
Definition caucus_two_minutes : Caucus.CaucusData :=
  caucus_with (Some 2%float) (Some Minutes).

(** Cookies of a delegate of France. *)
Definition cookies_france (name : string) : Js.value :=
  if bool_decide (name = "nation") then Js.str "France"
  else if bool_decide (name = "authToken") then Js.str "s3cret"
  else Js.undefined.

(** No cookie set. *)
Definition cookies_none (name : string) : Js.value := Js.undefined.

Definition member (name : string) (token : option string) : Member.MemberData := {|
  Member.name := name;
  Member.present := true;
  Member.rank := Member.Standard;
  Member.voting := true;
  Member.frozen := false;
  Member.authToken := token
|}.

(** A committee's members: France and Germany, each with a token. *)
Definition members_fr_de : gmap string Member.MemberData :=
  <["-M1" := member "France" (Some "s3cret")]>
    (<["-M2" := member "Germany" (Some "geheim")]> ∅).

(** A committee whose only member is Germany. *)
Definition members_de : gmap string Member.MemberData :=
  <["-M2" := member "Germany" (Some "geheim")]> ∅.

(** A [getID] that answers with the key of a member of that name, and with
    the empty key when there is none. *)
Definition getID_by_name (members : gmap string Member.MemberData)
  (name : Js.value) : string :=
  match filter (fun kv => Js.strict_eq (Js.str (Member.name kv.2)) name = true)
               (map_to_list members) with
  | kv :: _ => kv.1
  | [] => ""
  end.

Definition props_of (c : option Caucus.CaucusData)
  (ms : option (gmap string Member.MemberData)) : CaucusQueuer.Props := {|
  CaucusQueuer.caucus := c;
  CaucusQueuer.members := ms;
  CaucusQueuer.caucusFref := ["committees"; "-C1"; "caucuses"; "-K1"]
|}.

Definition option_france : Member.MemberOption := {|
  Member.key := "FR";
  Member.value := "FR";
  Member.flag := "fr";
  Member.text := "France"
|}.

Definition option_germany : Member.MemberOption := {|
  Member.key := "DE";
  Member.value := "DE";
  Member.flag := "de";
  Member.text := "Germany"
|}.

Definition country_options : list Member.MemberOption :=
  [option_france; option_germany].

(** Lower-casing of the letters A to Z. *)
Definition ascii_lower (c : Ascii.ascii) : Ascii.ascii :=
  let n := Ascii.nat_of_ascii c in
  if Nat.leb 65 n && Nat.leb n 90 then Ascii.ascii_of_nat (n + 32) else c.

Fixpoint ascii_toLowerCase (s : string) : string :=
  match s with
  | EmptyString => EmptyString
  | String c rest => String (ascii_lower c) (ascii_toLowerCase rest)
  end.

Definition user_ada : Firebase.User := {|
  Firebase.uid := "uid-ada";
  Firebase.email := Some "ada@example.org"
|}.

(** A database that holds no committee. *)
Definition db_empty (r : Firebase.Request)
  : option (gmap string Committee.CommitteeData) := None.

Definition committee_with (cs : option (gmap string Caucus.CaucusData))
  : Committee.CommitteeData := {|
  Committee.name := "Security Council";
  Committee.topic := "";
  Committee.members := Some members_fr_de;
  Committee.caucuses := cs
|}.

Definition component_state (c : option Committee.CommitteeData) (l : bool)
  : CaucusComponent.State := {|
  CaucusComponent.speakerTimer := Caucus.speakerTimer (Caucus.DEFAULT_CAUCUS timer);
  CaucusComponent.caucusTimer := Caucus.caucusTimer (Caucus.DEFAULT_CAUCUS timer);
  CaucusComponent.committee := c;
  CaucusComponent.committeeFref := ["committees"; "-C1"];
  CaucusComponent.loading := l;
  CaucusComponent.isOwner := false
|}.

(** A rendering of numbers that is enough for the examples. *)
Definition toString_sample (d : Js.number) : string :=
  if PrimFloat.eqb d 2%float then "2"
  else if PrimFloat.eqb d 60%float then "60"
  else "?".

(** The options a committee of France and Germany presents. *)
Definition member_options : list Member.MemberOption :=
  [option_germany; option_france].

Definition user_bob : Firebase.User := {|
  Firebase.uid := "uid-bob";
  Firebase.email := Some "bob@example.org"
|}.

(** Ada's committees. *)
Definition committees_ada : gmap string Committee.CommitteeData :=
  <["-C1" := committee_with None]> ∅.

(** A database that holds Ada's committee and none of anybody else. *)
Definition db_ada (r : Firebase.Request)
  : option (gmap string Committee.CommitteeData) :=
  match r with
  | Firebase.CommitteesByCreator uid =>
      if bool_decide (uid = "uid-ada") then Some committees_ada else None
  end.

Definition settings_default (c : option Committee.CommitteeData) : CaucusView.Settings := {|
  CaucusView.autoNextSpeaker := false;
  CaucusView.timersInSeparateColumns := false;
  CaucusView.moveQueueUp := false
|}.

(** The owner of every committee is Ada. *)
Definition isOwner_ada (c : option Committee.CommitteeData) (u : Firebase.User) : bool :=
  bool_decide (Firebase.uid u = "uid-ada").

(** A [getID] that answers with a name of [Object.prototype]. *)
Definition getID_constructor (members : gmap string Member.MemberData)
  (name : Js.value) : string := "constructor".

(** The cookies of France without the token. *)
Definition cookies_no_token (name : string) : Js.value :=
  if bool_decide (name = "nation") then Js.str "France" else Js.undefined.

(** A caucus that agrees with the default one on the speaking time and its
    unit, and differs from it in name, topic, status, timers, queue and
    speaker. *)
Definition caucus_other : Caucus.CaucusData := {|
  Caucus.name := "Unmoderated caucus";
  Caucus.topic := "Working paper 1";
  Caucus.status := Caucus.Closed;
  Caucus.speakerTimer := ∅;
  Caucus.speakerDuration := Some 60%float;
  Caucus.speakerUnit := Some Seconds;
  Caucus.caucusTimer := ∅;
  Caucus.queueIsPublic := Some true;
  Caucus.speaking := Some {| who := "France"; stance := For; duration := 30%float |};
  Caucus.queue := None;
  Caucus.history := None
|}.

End Samples.

(** * Properties *)

Import TimerSetter SpeakerFeed.

(** ** ToBoolean on numbers *)

Lemma ToBoolean_number_nonzero (d : Js.number) :
  Js.ToBoolean_number d = true ->
  PrimFloat.eqb d 0%float = false /\ PrimFloat.eqb d d = true.
Proof.
  unfold Js.ToBoolean_number. intros H.
  apply andb_true_iff in H as [Hz Hn].
  apply negb_true_iff in Hz. by split.
Qed.

Lemma ToBoolean_number_zero_nan :
  Js.ToBoolean_number 0%float = false /\
  Js.ToBoolean_number (-0)%float = false /\
  Js.ToBoolean_number nan = false /\
  Js.ToBoolean_number 60%float = true /\
  Js.ToBoolean_number infinity = true.
Proof. repeat split; reflexivity. Qed.

(** ** recoverUnit and recoverDuration *)

Lemma recoverUnit_missing (T : Unit -> bool) (caucus : option Caucus.CaucusData) :
  caucus ≫= Caucus.speakerUnit = None ->
  Caucus.recoverUnit T caucus = Seconds.
Proof.
  destruct caucus as [c|]; simpl; [|done].
  by intros ->.
Qed.

Lemma recoverUnit_present (T : Unit -> bool) (c : Caucus.CaucusData) (u : Unit) :
  Caucus.speakerUnit c = Some u ->
  Caucus.recoverUnit T (Some c) = if T u then u else Seconds.
Proof. simpl. by intros ->. Qed.

(** C1: provided the enum member [Unit.Minutes] is a truthy value,
    [recoverUnit] returns the stored [speakerUnit] when the caucus is
    supplied and the field is present, and [Unit.Seconds] when the caucus is
    missing or its [speakerUnit] is missing. *)
Theorem recoverUnit_stored_or_seconds (T : Unit -> bool)
  (caucus : option Caucus.CaucusData) :
  T Minutes = true ->
  (forall c u, caucus = Some c -> Caucus.speakerUnit c = Some u ->
     Caucus.recoverUnit T caucus = u) /\
  (caucus = None -> Caucus.recoverUnit T caucus = Seconds) /\
  (forall c, caucus = Some c -> Caucus.speakerUnit c = None ->
     Caucus.recoverUnit T caucus = Seconds).
Proof.
  intros HT. split; [|split].
  - intros c u -> Hu. rewrite (recoverUnit_present T c u Hu).
    destruct u; [by rewrite HT | by destruct (T Seconds)].
  - intros ->. reflexivity.
  - intros c -> Hu. apply recoverUnit_missing. exact Hu.
Qed.

Lemma recoverUnit_stored_or_seconds_witness :
  Samples.truthy_members Minutes = true /\
  Caucus.recoverUnit Samples.truthy_members (Some Samples.caucus_two_minutes) = Minutes /\
  Caucus.recoverUnit Samples.truthy_members None = Seconds.
Proof.
  split; [reflexivity|].
  pose proof (recoverUnit_stored_or_seconds Samples.truthy_members
                (Some Samples.caucus_two_minutes) eq_refl) as [Hstored _].
  pose proof (recoverUnit_stored_or_seconds Samples.truthy_members
                None eq_refl) as (_ & Hnone & _).
  split.
  - apply (Hstored Samples.caucus_two_minutes Minutes); reflexivity.
  - apply Hnone. reflexivity.
Defined.

(** With a numeric enum the stored [Minutes] is falsy and is replaced. *)
Example recoverUnit_numeric_enum :
  Caucus.recoverUnit Samples.numeric_members (Some Samples.caucus_two_minutes) = Seconds.
Proof. reflexivity. Qed.

Lemma recoverDuration_Some (caucus : option Caucus.CaucusData) (d : Js.number) :
  Caucus.recoverDuration caucus = Some d <->
  exists c, caucus = Some c /\ Caucus.speakerDuration c = Some d /\
            Js.ToBoolean_number d = true.
Proof.
  unfold Caucus.recoverDuration. split.
  - destruct caucus as [c|]; [|done].
    destruct (Caucus.speakerDuration c) as [d'|] eqn:Hd; [|done].
    destruct (Js.ToBoolean_number d') eqn:Ht; [|done].
    intros [= <-]. by exists c.
  - intros (c & -> & -> & ->). reflexivity.
Qed.

Lemma recoverDuration_None (caucus : option Caucus.CaucusData) :
  Caucus.recoverDuration caucus = None <->
  caucus = None \/
  exists c, caucus = Some c /\
    (Caucus.speakerDuration c = None \/
     exists d, Caucus.speakerDuration c = Some d /\ Js.ToBoolean_number d = false).
Proof.
  unfold Caucus.recoverDuration. split.
  - destruct caucus as [c|]; [|by left].
    intros H. right. exists c. split; [done|].
    destruct (Caucus.speakerDuration c) as [d|]; [|by left].
    right. exists d. split; [done|].
    by destruct (Js.ToBoolean_number d).
  - intros [-> | (c & -> & [-> | (d & -> & ->)])]; reflexivity.
Qed.

(** C2, as stated, fails: a caucus whose stored [speakerDuration] is 0 has
    the field present, and [recoverDuration] returns [undefined], not 0. *)
Lemma recoverDuration_zero_is_undefined :
  Caucus.speakerDuration Samples.caucus_zero_duration = Some 0%float /\
  Caucus.recoverDuration (Some Samples.caucus_zero_duration) = None /\
  ~ (forall c d, Caucus.speakerDuration c = Some d ->
       Caucus.recoverDuration (Some c) = Some d).
Proof.
  split; [reflexivity|]. split; [reflexivity|].
  intros H. specialize (H Samples.caucus_zero_duration 0%float eq_refl).
  discriminate H.
Qed.

(** C2, amended: [recoverDuration] returns the stored [speakerDuration]
    exactly when the caucus is supplied and the field holds a truthy number
    (neither 0 nor NaN); it returns [undefined] exactly when the caucus is
    missing, the field is missing, or the stored number is 0 or NaN. *)
Theorem recoverDuration_stored_truthy_or_undefined
  (caucus : option Caucus.CaucusData) :
  (forall d, Caucus.recoverDuration caucus = Some d <->
     exists c, caucus = Some c /\ Caucus.speakerDuration c = Some d /\
               PrimFloat.eqb d 0%float = false /\ PrimFloat.eqb d d = true) /\
  (Caucus.recoverDuration caucus = None <->
     caucus = None \/
     exists c, caucus = Some c /\
       (Caucus.speakerDuration c = None \/
        exists d, Caucus.speakerDuration c = Some d /\
          (PrimFloat.eqb d 0%float = true \/ PrimFloat.eqb d d = false))).
Proof.
  split.
  - intros d. rewrite recoverDuration_Some. split.
    + intros (c & Hc & Hd & Ht). exists c.
      apply ToBoolean_number_nonzero in Ht. tauto.
    + intros (c & Hc & Hd & Hz & Hn). exists c. repeat split; try done.
      unfold Js.ToBoolean_number. by rewrite Hz, Hn.
  - rewrite recoverDuration_None. split.
    + intros [Hn | (c & Hc & [Hd | (d & Hd & Ht)])]; [by left | right; exists c ..].
      * split; [done | by left].
      * split; [done|]. right. exists d. split; [done|].
        unfold Js.ToBoolean_number in Ht.
        destruct (PrimFloat.eqb d 0%float); [by left|].
        destruct (PrimFloat.eqb d d); [done | by right].
    + intros [Hn | (c & Hc & [Hd | (d & Hd & Hz)])]; [by left | right; exists c ..].
      * split; [done | by left].
      * split; [done|]. right. exists d. split; [done|].
        unfold Js.ToBoolean_number.
        destruct Hz as [-> | ->]; [done|]. by rewrite andb_false_r.
Qed.

(** [recoverUnit] reads nothing of the caucus but [speakerUnit], and
    [recoverDuration] nothing but [speakerDuration]. *)
Lemma recoverUnit_reads_speakerUnit (T : Unit -> bool)
  (c1 c2 : option Caucus.CaucusData) :
  c1 ≫= Caucus.speakerUnit = c2 ≫= Caucus.speakerUnit ->
  Caucus.recoverUnit T c1 = Caucus.recoverUnit T c2.
Proof.
  destruct c1 as [a|], c2 as [b|]; simpl; intros H.
  - by rewrite H.
  - by rewrite H.
  - by rewrite <- H.
  - reflexivity.
Qed.

Lemma recoverDuration_reads_speakerDuration (c1 c2 : option Caucus.CaucusData) :
  c1 ≫= Caucus.speakerDuration = c2 ≫= Caucus.speakerDuration ->
  Caucus.recoverDuration c1 = Caucus.recoverDuration c2.
Proof.
  destruct c1 as [a|], c2 as [b|]; simpl; intros H.
  - by rewrite H.
  - by rewrite H.
  - by rewrite <- H.
  - reflexivity.
Qed.

(** C9: [recoverUnit] and [recoverDuration] are pure functions of the
    caucus value, and of no more of it than the one field each reads: two
    runs return equal results as soon as the two caucus values agree on
    [speakerUnit] and on [speakerDuration], so in particular on equal caucus
    values, and whatever the rest of the caucus (name, topic, status, timers,
    queue, history, speaker) holds. The enum's truthiness [T] is a constant
    of the program, the same in both runs. *)
Theorem recover_deterministic (T : Unit -> bool)
  (c1 c2 : option Caucus.CaucusData) :
  c1 ≫= Caucus.speakerUnit = c2 ≫= Caucus.speakerUnit ->
  c1 ≫= Caucus.speakerDuration = c2 ≫= Caucus.speakerDuration ->
  Caucus.recoverUnit T c1 = Caucus.recoverUnit T c2 /\
  Caucus.recoverDuration c1 = Caucus.recoverDuration c2.
Proof.
  intros Hunit Hduration. split.
  - by apply recoverUnit_reads_speakerUnit.
  - by apply recoverDuration_reads_speakerDuration.
Qed.

Lemma recover_deterministic_witness :
  Some (Caucus.DEFAULT_CAUCUS Samples.timer) <> Some Samples.caucus_other /\
  Some (Caucus.DEFAULT_CAUCUS Samples.timer) ≫= Caucus.speakerUnit
  = Some Samples.caucus_other ≫= Caucus.speakerUnit /\
  Some (Caucus.DEFAULT_CAUCUS Samples.timer) ≫= Caucus.speakerDuration
  = Some Samples.caucus_other ≫= Caucus.speakerDuration /\
  Caucus.recoverUnit Samples.numeric_members (Some (Caucus.DEFAULT_CAUCUS Samples.timer))
  = Caucus.recoverUnit Samples.numeric_members (Some Samples.caucus_other) /\
  Caucus.recoverDuration (Some (Caucus.DEFAULT_CAUCUS Samples.timer))
  = Caucus.recoverDuration (Some Samples.caucus_other).
Proof.
  split; [discriminate|]. split; [reflexivity|]. split; [reflexivity|].
  apply (recover_deterministic Samples.numeric_members); reflexivity.
Defined.

(** A function that read another field would tell the two caucus values of
    the witness apart, as the header of the page does. *)
Example caucus_name_differs :
  Caucus.name (Caucus.DEFAULT_CAUCUS Samples.timer) <> Caucus.name Samples.caucus_other.
Proof. discriminate. Qed.

(** ** The default caucus *)

Lemma default_times :
  Caucus.DEFAULT_SPEAKER_TIME_SECONDS = 60%float /\
  Caucus.DEFAULT_CAUCUS_TIME_SECONDS = 600%float.
Proof. split; reflexivity. Qed.

(** C7: the default caucus is the reference record: name 'untitled caucus',
    empty topic, status Open, the default timer with 60 seconds remaining as
    speaker timer and with 600 seconds remaining as caucus timer (1 * 60 and
    10 * 60), speakerDuration 60, speakerUnit Seconds, queueIsPublic false,
    empty queue and history, and nobody speaking. *)
Theorem DEFAULT_CAUCUS_reference (DEFAULT_TIMER : Timer.TimerData) :
  Caucus.DEFAULT_SPEAKER_TIME_SECONDS = 60%float /\
  Caucus.DEFAULT_CAUCUS_TIME_SECONDS = 600%float /\
  Caucus.name (Caucus.DEFAULT_CAUCUS DEFAULT_TIMER) = "untitled caucus" /\
  Caucus.topic (Caucus.DEFAULT_CAUCUS DEFAULT_TIMER) = "" /\
  Caucus.status (Caucus.DEFAULT_CAUCUS DEFAULT_TIMER) = Caucus.Open /\
  Caucus.speakerTimer (Caucus.DEFAULT_CAUCUS DEFAULT_TIMER) !! "remaining"
    = Some (Js.num 60%float) /\
  (forall k : string, k <> "remaining" ->
     Caucus.speakerTimer (Caucus.DEFAULT_CAUCUS DEFAULT_TIMER) !! k = DEFAULT_TIMER !! k) /\
  Caucus.caucusTimer (Caucus.DEFAULT_CAUCUS DEFAULT_TIMER) !! "remaining"
    = Some (Js.num 600%float) /\
  (forall k : string, k <> "remaining" ->
     Caucus.caucusTimer (Caucus.DEFAULT_CAUCUS DEFAULT_TIMER) !! k = DEFAULT_TIMER !! k) /\
  Caucus.speakerDuration (Caucus.DEFAULT_CAUCUS DEFAULT_TIMER) = Some 60%float /\
  Caucus.speakerUnit (Caucus.DEFAULT_CAUCUS DEFAULT_TIMER) = Some Seconds /\
  Caucus.queueIsPublic (Caucus.DEFAULT_CAUCUS DEFAULT_TIMER) = Some false /\
  Caucus.queue (Caucus.DEFAULT_CAUCUS DEFAULT_TIMER) = Some ∅ /\
  Caucus.history (Caucus.DEFAULT_CAUCUS DEFAULT_TIMER) = Some ∅ /\
  Caucus.speaking (Caucus.DEFAULT_CAUCUS DEFAULT_TIMER) = None.
Proof.
  destruct default_times as [Hs Hc].
  repeat split; try reflexivity; simpl.
  - rewrite Hs. apply lookup_insert_eq.
  - intros k Hk. by apply lookup_insert_ne.
  - rewrite Hc. apply lookup_insert_eq.
  - intros k Hk. by apply lookup_insert_ne.
Qed.

(** The recovery functions on the default caucus give its own settings. *)
Lemma recover_DEFAULT_CAUCUS (T : Unit -> bool) (DEFAULT_TIMER : Timer.TimerData) :
  Caucus.recoverUnit T (Some (Caucus.DEFAULT_CAUCUS DEFAULT_TIMER)) = Seconds /\
  Caucus.recoverDuration (Some (Caucus.DEFAULT_CAUCUS DEFAULT_TIMER)) = Some 60%float.
Proof. split; [simpl; by destruct (T Seconds) | reflexivity]. Qed.

(** ** Caucus.render *)

Lemma recoverCaucus_Some (committee : option Committee.CommitteeData)
  (caucusID : string) (x : Caucus.CaucusData) :
  Committee.recoverCaucus committee caucusID = Some x <->
  exists c cs, committee = Some c /\ Committee.caucuses c = Some cs /\
               cs !! caucusID = Some x.
Proof.
  unfold Committee.recoverCaucus. split.
  - destruct committee as [c|]; [|done].
    destruct (Committee.caucuses c) as [cs|] eqn:Hcs; simpl.
    + intros H. by exists c, cs.
    + by rewrite lookup_empty.
  - intros (c & cs & -> & -> & H). exact H.
Qed.

Section RenderCases.

Variable recoverCaucus :
  option Committee.CommitteeData -> string -> option Caucus.CaucusData.

Lemma render_no_caucus (st : CaucusComponent.State) (caucusID : string) :
  CaucusComponent.loading st = false ->
  recoverCaucus (CaucusComponent.committee st) caucusID = None ->
  CaucusComponent.render recoverCaucus st caucusID
  = CaucusComponent.NotFound "caucus" caucusID.
Proof.
  intros Hl Hc. unfold CaucusComponent.render. rewrite Hl, Hc.
  rewrite bool_decide_eq_false_2; [reflexivity|]. by intros [? ?].
Qed.

Lemma render_loading (st : CaucusComponent.State) (caucusID : string) :
  CaucusComponent.loading st = true ->
  CaucusComponent.render recoverCaucus st caucusID
  = CaucusComponent.renderCaucus st caucusID
      (recoverCaucus (CaucusComponent.committee st) caucusID).
Proof. intros Hl. unfold CaucusComponent.render. by rewrite Hl. Qed.

Lemma render_caucus (st : CaucusComponent.State) (caucusID : string)
  (x : Caucus.CaucusData) :
  recoverCaucus (CaucusComponent.committee st) caucusID = Some x ->
  CaucusComponent.render recoverCaucus st caucusID
  = CaucusComponent.renderCaucus st caucusID (Some x).
Proof.
  intros Hc. unfold CaucusComponent.render. rewrite Hc.
  rewrite bool_decide_eq_true_2; [|by eexists].
  by rewrite andb_false_r.
Qed.

End RenderCases.

(** C8: once loading has finished, if no caucus is found under the
    requested caucusID, [render] returns the NotFound view for the item
    "caucus" and that id; while still loading, or when the caucus exists, it
    returns what [renderCaucus] builds from the caucus found. This holds for
    whatever [recoverCaucus] finds the caucus with; with [recoverCaucus] the
    lookup in the committee's caucuses, "no caucus is found" is: the
    committee loaded holds no caucus under that id. *)
Theorem render_not_found_or_caucus (st : CaucusComponent.State) (caucusID : string) :
  (forall recoverCaucus,
     (CaucusComponent.loading st = false ->
      recoverCaucus (CaucusComponent.committee st) caucusID = None ->
      CaucusComponent.render recoverCaucus st caucusID
      = CaucusComponent.NotFound "caucus" caucusID) /\
     (CaucusComponent.loading st = true \/
      is_Some (recoverCaucus (CaucusComponent.committee st) caucusID) ->
      CaucusComponent.render recoverCaucus st caucusID
      = CaucusComponent.renderCaucus st caucusID
          (recoverCaucus (CaucusComponent.committee st) caucusID))) /\
  (CaucusComponent.loading st = false ->
   (forall c cs, CaucusComponent.committee st = Some c ->
      Committee.caucuses c = Some cs -> cs !! caucusID = None) ->
   CaucusComponent.render Committee.recoverCaucus st caucusID
   = CaucusComponent.NotFound "caucus" caucusID) /\
  (forall c cs x, CaucusComponent.committee st = Some c ->
     Committee.caucuses c = Some cs -> cs !! caucusID = Some x ->
     CaucusComponent.render Committee.recoverCaucus st caucusID
     = CaucusComponent.renderCaucus st caucusID (Some x)).
Proof.
  split; [|split].
  - intros recoverCaucus. split.
    + apply render_no_caucus.
    + intros [Hl | [x Hx]].
      * by apply render_loading.
      * rewrite Hx. by apply render_caucus.
  - intros Hl Hnone. apply render_no_caucus; [done|].
    destruct (Committee.recoverCaucus (CaucusComponent.committee st) caucusID)
      as [x|] eqn:Hx; [|done].
    apply recoverCaucus_Some in Hx as (c & cs & Hc & Hcs & Hlk).
    rewrite (Hnone c cs Hc Hcs) in Hlk. discriminate Hlk.
  - intros c cs x Hc Hcs Hlk. apply render_caucus.
    apply recoverCaucus_Some. by exists c, cs.
Qed.

(** ** parseFlagName *)

Lemma FLAG_NAME_SET_elem (COUNTRY_OPTIONS : list Member.MemberOption) (name : string) :
  name ∈ Member.FLAG_NAME_SET COUNTRY_OPTIONS <->
  exists o, o ∈ COUNTRY_OPTIONS /\ Member.text o = name.
Proof.
  unfold Member.FLAG_NAME_SET. rewrite elem_of_list_to_set, list_elem_of_fmap.
  split; intros (o & H1 & H2); exists o; by split.
Qed.

(** C10: [parseFlagName] is total: it returns the lowercased name when the
    name is the text of some country option, and 'fm' for every other name. *)
Theorem parseFlagName_total (COUNTRY_OPTIONS : list Member.MemberOption)
  (toLowerCase : string -> string) (name : string) :
  ((exists o, o ∈ COUNTRY_OPTIONS /\ Member.text o = name) /\
   Member.parseFlagName COUNTRY_OPTIONS toLowerCase name = toLowerCase name) \/
  (~ (exists o, o ∈ COUNTRY_OPTIONS /\ Member.text o = name) /\
   Member.parseFlagName COUNTRY_OPTIONS toLowerCase name = "fm").
Proof.
  unfold Member.parseFlagName.
  destruct (decide (name ∈ Member.FLAG_NAME_SET COUNTRY_OPTIONS)) as [Hin|Hout].
  - left. rewrite bool_decide_eq_true_2 by done.
    split; [by apply FLAG_NAME_SET_elem | reflexivity].
  - right. rewrite bool_decide_eq_false_2 by done.
    split; [by rewrite <- FLAG_NAME_SET_elem | reflexivity].
Qed.

Example parseFlagName_samples :
  Member.parseFlagName Samples.country_options Samples.ascii_toLowerCase "France" = "france" /\
  Member.parseFlagName Samples.country_options Samples.ascii_toLowerCase "france" = "fm" /\
  Member.parseFlagName Samples.country_options Samples.ascii_toLowerCase "Atlantis" = "fm" /\
  Member.parseFlagName [] Samples.ascii_toLowerCase "France" = "fm".
Proof. repeat split; vm_compute; reflexivity. Qed.

Example render_samples :
  CaucusComponent.render Committee.recoverCaucus
    (Samples.component_state
       (Some (Samples.committee_with (Some {["-K1" := Samples.caucus_two_minutes]})))
       false) "-K1"
  = CaucusComponent.renderCaucus
      (Samples.component_state
         (Some (Samples.committee_with (Some {["-K1" := Samples.caucus_two_minutes]})))
         false) "-K1" (Some Samples.caucus_two_minutes) /\
  CaucusComponent.render Committee.recoverCaucus
    (Samples.component_state None true) "-K1"
  = CaucusComponent.CaucusContainer (Samples.component_state None true) "-K1" None /\
  CaucusComponent.render Committee.recoverCaucus
    (Samples.component_state None false) "-K1"
  = CaucusComponent.NotFound "caucus" "-K1" /\
  CaucusComponent.render Committee.recoverCaucus
    (Samples.component_state (Some (Samples.committee_with None)) false) "-K1"
  = CaucusComponent.NotFound "caucus" "-K1".
Proof. repeat split; vm_compute; reflexivity. Qed.

(** ** Login.authStateChangedCallback *)

Lemma committeesLoaded_committees
  (val : option (gmap string Committee.CommitteeData)) (st : Auth.State) :
  Auth.committees (Auth.committeesLoaded val st) = Some (default ∅ val).
Proof. by destruct val. Qed.

(** C6: after an auth state change that supplies a signed-in user, the
    callback queries the committees created by that user's uid; when the
    query returns no value the [committees] state becomes the empty record,
    and whatever it returns, [committees] is a record once it has resolved. *)
Theorem committees_default_to_empty_record
  (db : Firebase.Request -> option (gmap string Committee.CommitteeData))
  (usr : Firebase.User) (st : Auth.State) :
  (Auth.authStateChangedCallback (Some usr) st).2
    = Some (Firebase.CommitteesByCreator (Firebase.uid usr)) /\
  (db (Firebase.CommitteesByCreator (Firebase.uid usr)) = None ->
   Auth.committees (Auth.authStateChanged_resolved db (Some usr) st) = Some ∅) /\
  (forall c, db (Firebase.CommitteesByCreator (Firebase.uid usr)) = Some c ->
   Auth.committees (Auth.authStateChanged_resolved db (Some usr) st) = Some c) /\
  is_Some (Auth.committees (Auth.authStateChanged_resolved db (Some usr) st)) /\
  Auth.user (Auth.authStateChanged_resolved db (Some usr) st) = Some (Some usr).
Proof.
  unfold Auth.authStateChanged_resolved, Auth.authStateChangedCallback.
  split; [reflexivity|].
  rewrite committeesLoaded_committees.
  split; [by intros ->|]. split; [by intros c ->|].
  split; [by eexists | reflexivity].
Qed.

Example committees_after_sign_in :
  Auth.committees Auth.initial_state = None /\
  Auth.committees
    (Auth.authStateChanged_resolved Samples.db_empty (Some Samples.user_ada)
       Auth.initial_state) = Some ∅ /\
  Auth.committees
    (Auth.authStateChanged_resolved Samples.db_empty None Auth.initial_state) = None.
Proof. repeat split; reflexivity. Qed.

(** ** CaucusQueuer: setStance *)

Lemma Number_recoverDuration_truthy (caucus : option Caucus.CaucusData) :
  Js.ToBoolean_number (Js.Number (Caucus.recoverDuration caucus))
  = bool_decide (is_Some (Caucus.recoverDuration caucus)).
Proof.
  destruct (Caucus.recoverDuration caucus) as [d|] eqn:Hd; unfold Js.Number.
  - apply recoverDuration_Some in Hd as (c & _ & _ & Ht).
    rewrite Ht. symmetry. apply bool_decide_eq_true_2. by eexists.
  - symmetry. apply bool_decide_eq_false_2. by intros [? ?].
Qed.

Lemma setStance_push (T : Unit -> bool) (props : CaucusQueuer.Props)
  (qm : Member.MemberOption) (stance : Stance) (d : Js.number) :
  Caucus.recoverDuration (CaucusQueuer.caucus props) = Some d ->
  CaucusQueuer.setStance T props (Some qm) stance
  = [Firebase.PushSet (CaucusQueuer.caucusFref props ++ ["queue"])
       {| who := Member.text qm;
          SpeakerFeed.stance := stance;
          duration :=
            if decide (Caucus.recoverUnit T (CaucusQueuer.caucus props) = Minutes)
            then (d * 60)%float else d |}].
Proof.
  intros Hd. unfold CaucusQueuer.setStance.
  rewrite Number_recoverDuration_truthy.
  rewrite bool_decide_eq_true_2 by (rewrite Hd; by eexists).
  rewrite Hd. reflexivity.
Qed.

Lemma setStance_no_duration (T : Unit -> bool) (props : CaucusQueuer.Props)
  (queueMember : option Member.MemberOption) (stance : Stance) :
  Caucus.recoverDuration (CaucusQueuer.caucus props) = None ->
  CaucusQueuer.setStance T props queueMember stance = [].
Proof.
  intros Hd. unfold CaucusQueuer.setStance.
  rewrite Number_recoverDuration_truthy.
  rewrite bool_decide_eq_false_2; [reflexivity|].
  rewrite Hd. by intros [? ?].
Qed.

Lemma setStance_no_member (T : Unit -> bool) (props : CaucusQueuer.Props)
  (stance : Stance) :
  CaucusQueuer.setStance T props None stance = [].
Proof.
  unfold CaucusQueuer.setStance.
  by destruct (Js.ToBoolean_number _).
Qed.

(** C3: pressing a stance button pushes an entry onto the caucus's queue if
    and only if a nonzero speaker duration is recovered from the caucus and a
    queue member is selected. The entry pushed has the selected member's
    text as [who], the chosen stance, and as duration the recovered duration
    times 60 when the recovered unit is Minutes, unchanged when it is
    Seconds. In every other case nothing is written. *)
Theorem setStance_pushes_iff (T : Unit -> bool) (props : CaucusQueuer.Props)
  (queueMember : option Member.MemberOption) (stance : Stance) :
  (CaucusQueuer.setStance T props queueMember stance <> [] <->
     (exists d, Caucus.recoverDuration (CaucusQueuer.caucus props) = Some d /\
                PrimFloat.eqb d 0%float = false) /\
     is_Some queueMember) /\
  (forall d qm,
     Caucus.recoverDuration (CaucusQueuer.caucus props) = Some d ->
     queueMember = Some qm ->
     exists ev,
       CaucusQueuer.setStance T props queueMember stance
       = [Firebase.PushSet (CaucusQueuer.caucusFref props ++ ["queue"]) ev] /\
       who ev = Member.text qm /\
       SpeakerFeed.stance ev = stance /\
       (Caucus.recoverUnit T (CaucusQueuer.caucus props) = Minutes ->
        duration ev = (d * 60)%float) /\
       (Caucus.recoverUnit T (CaucusQueuer.caucus props) = Seconds ->
        duration ev = d)) /\
  (Caucus.recoverDuration (CaucusQueuer.caucus props) = None \/ queueMember = None ->
   CaucusQueuer.setStance T props queueMember stance = []).
Proof.
  split; [|split].
  - split.
    + intros Hne.
      destruct (Caucus.recoverDuration (CaucusQueuer.caucus props)) as [d|] eqn:Hd.
      * destruct queueMember as [qm|].
        -- split; [|by eexists]. exists d. split; [done|].
           apply recoverDuration_Some in Hd as (c & _ & _ & Ht).
           by apply ToBoolean_number_nonzero in Ht as [Hz _].
        -- by rewrite setStance_no_member in Hne.
      * by rewrite setStance_no_duration in Hne.
    + intros [(d & Hd & _) [qm ->]].
      by rewrite (setStance_push T props qm stance d Hd).
  - intros d qm Hd ->. eexists. split; [by apply setStance_push|]. simpl.
    split; [done|]. split; [done|]. split; intros Hu.
    + by rewrite decide_True.
    + rewrite decide_False; [done|]. by rewrite Hu.
  - intros [Hd | ->].
    + by apply setStance_no_duration.
    + apply setStance_no_member.
Qed.

Example setStance_samples :
  CaucusQueuer.setStance Samples.truthy_members
    (Samples.props_of (Some Samples.caucus_two_minutes) (Some Samples.members_fr_de))
    (Some Samples.option_france) Against
  = [Firebase.PushSet ["committees"; "-C1"; "caucuses"; "-K1"; "queue"]
       {| who := "France"; stance := Against; duration := 120%float |}] /\
  CaucusQueuer.setStance Samples.truthy_members
    (Samples.props_of (Some Samples.caucus_zero_duration) (Some Samples.members_fr_de))
    (Some Samples.option_france) For = [] /\
  CaucusQueuer.setStance Samples.truthy_members
    (Samples.props_of None (Some Samples.members_fr_de))
    (Some Samples.option_france) Neutral = [].
Proof. repeat split; reflexivity. Qed.

(** ** CaucusQueuer: getNation *)

Section GetNation.

Variable getCookie : string -> Js.value.
Variable getID : gmap string Member.MemberData -> Js.value -> string.

(** [getNation] returns a member of the record exactly when the record of
    members is there, the nation cookie is set, the key [getID] answers with
    is a key of the record, and the authToken cookie is strictly equal to
    the authToken stored for that member; the member returned is the one
    under that key. *)
Lemma getNation_returns_member (props : CaucusQueuer.Props) (m : Member.MemberData) :
  CaucusQueuer.getNation getCookie getID props = Js.Returned (Some m) <->
  exists ms, CaucusQueuer.members props = Some ms /\
    Js.ToBoolean (getCookie "nation") = true /\
    ms !! getID ms (getCookie "nation") = Some m /\
    Js.strict_eq (getCookie "authToken")
      (Js.of_optional_string (Member.authToken m)) = true.
Proof.
  unfold CaucusQueuer.getNation. split.
  - destruct (CaucusQueuer.members props) as [ms|]; [|done].
    destruct (Js.ToBoolean (getCookie "nation")) eqn:Hn; [|done].
    destruct (ms !! getID ms (getCookie "nation")) as [m'|] eqn:Hm.
    + destruct (Js.strict_eq _ _) eqn:Ht; [|done].
      intros [= <-]. by exists ms.
    + destruct (bool_decide _); [|done]. by destruct (Js.strict_eq _ _).
  - intros (ms & -> & -> & -> & ->). reflexivity.
Qed.

(** [getNation] returns null exactly when there is no record of members, no
    nation cookie, the member found has another authToken than the cookie,
    or the key [getID] answers with is no key of the record but a name of
    [Object.prototype] and the authToken cookie is not [undefined]. *)
Lemma getNation_returns_null (props : CaucusQueuer.Props) :
  CaucusQueuer.getNation getCookie getID props = Js.Returned None <->
  CaucusQueuer.members props = None \/
  Js.ToBoolean (getCookie "nation") = false \/
  (exists ms m, CaucusQueuer.members props = Some ms /\
     ms !! getID ms (getCookie "nation") = Some m /\
     Js.strict_eq (getCookie "authToken")
       (Js.of_optional_string (Member.authToken m)) = false) \/
  (exists ms, CaucusQueuer.members props = Some ms /\
     ms !! getID ms (getCookie "nation") = None /\
     getID ms (getCookie "nation") ∈ Js.Object_prototype_keys /\
     Js.strict_eq (getCookie "authToken") Js.undefined = false).
Proof.
  unfold CaucusQueuer.getNation. split.
  - destruct (CaucusQueuer.members props) as [ms|]; [|by left].
    destruct (Js.ToBoolean (getCookie "nation")) eqn:Hn; [|by right; left].
    destruct (ms !! getID ms (getCookie "nation")) as [m|] eqn:Hm.
    + destruct (Js.strict_eq _ _) eqn:Ht; [done|].
      intros _. right. right. left. by exists ms, m.
    + destruct (decide (getID ms (getCookie "nation") ∈ Js.Object_prototype_keys))
        as [Hin|Hout].
      * rewrite bool_decide_eq_true_2 by done.
        destruct (Js.strict_eq _ _) eqn:Ht; [done|].
        intros _. right. right. right. by exists ms.
      * by rewrite bool_decide_eq_false_2 by done.
  - intros [-> | [Hn | [(ms & m & -> & Hm & Ht) | (ms & -> & Hm & Hin & Ht)]]];
      [done | | |].
    + destruct (CaucusQueuer.members props); [|done]. by rewrite Hn.
    + destruct (Js.ToBoolean (getCookie "nation")); [|done].
      by rewrite Hm, Ht.
    + destruct (Js.ToBoolean (getCookie "nation")); [|done].
      rewrite Hm, bool_decide_eq_true_2 by done. by rewrite Ht.
Qed.

(** [getNation] throws exactly when the record of members is there, the
    nation cookie is set, and the key [getID] answers with is neither a key
    of the record nor a name of [Object.prototype]. *)
Lemma getNation_throws (props : CaucusQueuer.Props) (e : Js.error) :
  CaucusQueuer.getNation getCookie getID props = Js.Threw e <->
  exists ms, CaucusQueuer.members props = Some ms /\
    Js.ToBoolean (getCookie "nation") = true /\
    ms !! getID ms (getCookie "nation") = None /\
    getID ms (getCookie "nation") ∉ Js.Object_prototype_keys.
Proof.
  unfold CaucusQueuer.getNation. split.
  - destruct (CaucusQueuer.members props) as [ms|]; [|done].
    destruct (Js.ToBoolean (getCookie "nation")) eqn:Hn; [|done].
    destruct (ms !! getID ms (getCookie "nation")) as [m|] eqn:Hm.
    + by destruct (Js.strict_eq _ _).
    + destruct (decide (getID ms (getCookie "nation") ∈ Js.Object_prototype_keys))
        as [Hin|Hout].
      * rewrite bool_decide_eq_true_2 by done. by destruct (Js.strict_eq _ _).
      * intros _. by exists ms.
  - intros (ms & -> & -> & -> & Hout).
    rewrite bool_decide_eq_false_2 by done. by destruct e.
Qed.

(** [getNation] returns a value inherited from [Object.prototype], which is
    neither null nor a member, exactly when the record of members is there,
    the nation cookie is set, the key [getID] answers with is no key of the
    record but a name of [Object.prototype], and the authToken cookie is
    [undefined]; the value is the one inherited under that key. *)
Lemma getNation_returns_inherited (props : CaucusQueuer.Props) (k : string) :
  CaucusQueuer.getNation getCookie getID props = Js.Untyped k <->
  exists ms, CaucusQueuer.members props = Some ms /\
    Js.ToBoolean (getCookie "nation") = true /\
    getID ms (getCookie "nation") = k /\
    ms !! k = None /\
    k ∈ Js.Object_prototype_keys /\
    Js.strict_eq (getCookie "authToken") Js.undefined = true.
Proof.
  unfold CaucusQueuer.getNation. split.
  - destruct (CaucusQueuer.members props) as [ms|]; [|done].
    destruct (Js.ToBoolean (getCookie "nation")) eqn:Hn; [|done].
    destruct (ms !! getID ms (getCookie "nation")) as [m|] eqn:Hm.
    + by destruct (Js.strict_eq _ _).
    + destruct (decide (getID ms (getCookie "nation") ∈ Js.Object_prototype_keys))
        as [Hin|Hout].
      * rewrite bool_decide_eq_true_2 by done.
        destruct (Js.strict_eq _ _) eqn:Ht; [|done].
        intros [= <-]. by exists ms.
      * by rewrite bool_decide_eq_false_2 by done.
  - intros (ms & -> & -> & <- & -> & Hin & ->).
    by rewrite bool_decide_eq_true_2 by done.
Qed.

End GetNation.

Example getNation_samples :
  CaucusQueuer.getNation Samples.cookies_france Samples.getID_by_name
    (Samples.props_of None (Some Samples.members_fr_de))
  = Js.Returned (Some (Samples.member "France" (Some "s3cret"))) /\
  CaucusQueuer.getNation Samples.cookies_none Samples.getID_by_name
    (Samples.props_of None (Some Samples.members_fr_de))
  = Js.Returned None /\
  CaucusQueuer.getNation Samples.cookies_france Samples.getID_by_name
    (Samples.props_of None None)
  = Js.Returned None /\
  CaucusQueuer.getNation Samples.cookies_france Samples.getID_by_name
    (Samples.props_of None (Some Samples.members_de))
  = Js.Threw Js.TypeError /\
  CaucusQueuer.getNation Samples.cookies_france Samples.getID_constructor
    (Samples.props_of None (Some ∅))
  = Js.Returned None /\
  CaucusQueuer.getNation Samples.cookies_no_token Samples.getID_constructor
    (Samples.props_of None (Some ∅))
  = Js.Untyped "constructor".
Proof. repeat split; vm_compute; reflexivity. Qed.

(** C4: with an empty record of members and the nation cookie set, none of
    "no members, no nation cookie, token mismatch" applies and no member is
    named, yet [getNation] does not return null: for any key [getID] answers
    with, other than the names of [Object.prototype], [members[id]] is
    undefined and reading its [authToken] throws. *)
Theorem getNation_empty_members_not_null
  (getID : gmap string Member.MemberData -> Js.value -> string) :
  getID ∅ (Samples.cookies_france "nation") ∉ Js.Object_prototype_keys ->
  CaucusQueuer.getNation Samples.cookies_france getID (Samples.props_of None (Some ∅))
    = Js.Threw Js.TypeError /\
  CaucusQueuer.getNation Samples.cookies_france getID (Samples.props_of None (Some ∅))
    <> Js.Returned None.
Proof.
  intros Hout.
  assert (CaucusQueuer.getNation Samples.cookies_france getID
            (Samples.props_of None (Some ∅)) = Js.Threw Js.TypeError) as H.
  { unfold CaucusQueuer.getNation. simpl. rewrite lookup_empty.
    by rewrite bool_decide_eq_false_2 by done. }
  split; [exact H | by rewrite H].
Qed.

Lemma getNation_empty_members_not_null_witness :
  (Samples.getID_by_name ∅ (Samples.cookies_france "nation")
     ∉ Js.Object_prototype_keys) /\
  CaucusQueuer.getNation Samples.cookies_france Samples.getID_by_name
    (Samples.props_of None (Some ∅)) = Js.Threw Js.TypeError /\
  CaucusQueuer.getNation Samples.cookies_france Samples.getID_by_name
    (Samples.props_of None (Some ∅)) <> Js.Returned None.
Proof.
  assert (Samples.getID_by_name ∅ (Samples.cookies_france "nation")
            ∉ Js.Object_prototype_keys) as Hout
    by (apply (bool_decide_unpack _); vm_compute; exact I).
  split; [exact Hout|].
  exact (getNation_empty_members_not_null Samples.getID_by_name Hout).
Defined.

(** C5: [getNation] is not total. Whenever the record of members is there,
    the nation cookie is set, and the key [getID] answers with is neither a
    key of the record nor a name of [Object.prototype] (the cookie names no
    member of this committee), [members[id]] is dereferenced all the same
    and the call throws a TypeError. *)
Theorem getNation_throws_for_unknown_member
  (getCookie : string -> Js.value)
  (getID : gmap string Member.MemberData -> Js.value -> string)
  (props : CaucusQueuer.Props) (ms : gmap string Member.MemberData) :
  CaucusQueuer.members props = Some ms ->
  Js.ToBoolean (getCookie "nation") = true ->
  ms !! getID ms (getCookie "nation") = None ->
  getID ms (getCookie "nation") ∉ Js.Object_prototype_keys ->
  CaucusQueuer.getNation getCookie getID props = Js.Threw Js.TypeError.
Proof.
  intros Hms Hn Hid Hout. unfold CaucusQueuer.getNation.
  rewrite Hms, Hn, Hid. by rewrite bool_decide_eq_false_2 by done.
Qed.

Lemma getNation_throws_for_unknown_member_witness :
  CaucusQueuer.members (Samples.props_of None (Some Samples.members_de))
    = Some Samples.members_de /\
  Js.ToBoolean (Samples.cookies_france "nation") = true /\
  Samples.members_de
    !! Samples.getID_by_name Samples.members_de (Samples.cookies_france "nation") = None /\
  (Samples.getID_by_name Samples.members_de (Samples.cookies_france "nation")
     ∉ Js.Object_prototype_keys) /\
  CaucusQueuer.getNation Samples.cookies_france Samples.getID_by_name
    (Samples.props_of None (Some Samples.members_de)) = Js.Threw Js.TypeError.
Proof.
  assert (Samples.getID_by_name Samples.members_de (Samples.cookies_france "nation")
            ∉ Js.Object_prototype_keys) as Hout
    by (apply (bool_decide_unpack _); vm_compute; exact I).
  split; [reflexivity|]. split; [reflexivity|]. split; [vm_compute; reflexivity|].
  split; [exact Hout|].
  apply (getNation_throws_for_unknown_member Samples.cookies_france
           Samples.getID_by_name _ Samples.members_de);
    [reflexivity | reflexivity | vm_compute; reflexivity | exact Hout].
Defined.

(** * Further properties of the code *)

(** ** The first element a filter keeps *)

Section HeadFilter.

Context {A : Type} (P : A -> Prop) `{Pdec : !forall x, Decision (P x)}.

Lemma head_filter_Some (l : list A) (x : A) :
  head (filter P l) = Some x <->
  exists l1 l2, l = l1 ++ x :: l2 /\ P x /\ Forall (fun y => ~ P y) l1.
Proof.
  induction l as [|a l IH].
  - split; [done|]. intros (l1 & l2 & Hl & _). by destruct l1.
  - rewrite filter_cons. destruct (decide (P a)) as [Ha|Ha]; simpl.
    + split.
      * intros [= <-]. exists [], l. by repeat split.
      * intros (l1 & l2 & Hl & Hx & Hall). destruct l1 as [|b l1].
        -- by injection Hl as -> _.
        -- injection Hl as -> _. by apply Forall_cons in Hall as [? _].
    + rewrite IH. split.
      * intros (l1 & l2 & -> & Hx & Hall). exists (a :: l1), l2.
        repeat split; [done|]. by apply Forall_cons.
      * intros (l1 & l2 & Hl & Hx & Hall). destruct l1 as [|b l1].
        -- injection Hl as -> _. done.
        -- injection Hl as -> ->. apply Forall_cons in Hall as [_ Hall].
           by exists l1, l2.
Qed.

Lemma head_filter_None (l : list A) :
  head (filter P l) = None <-> forall x, x ∈ l -> ~ P x.
Proof.
  induction l as [|a l IH].
  - split; [|done]. intros _ x Hx. by apply elem_of_nil in Hx.
  - rewrite filter_cons. destruct (decide (P a)) as [Ha|Ha]; simpl.
    + split; [done|]. intros Hno. exfalso. apply (Hno a); [left | done].
    + rewrite IH. split.
      * intros Hno x Hx. apply elem_of_cons in Hx as [-> | Hx]; [done | by apply Hno].
      * intros Hno x Hx. apply Hno. by right.
Qed.

Lemma head_filter_elem (l : list A) (x : A) :
  head (filter P l) = Some x -> x ∈ l /\ P x.
Proof.
  intros (l1 & l2 & -> & Hx & _)%head_filter_Some. split; [|done].
  apply elem_of_app. right. left.
Qed.

End HeadFilter.

(** ** nameToMemberOption *)

(** [nameToMemberOption] always returns an option, never [undefined], and
    the option's text is the name asked for: for a name of the country
    table it is the first entry of the table with that text, for any other
    name it is the option whose key, value and text are the name and whose
    flag is 'fm'. *)
Theorem nameToMemberOption_defined (COUNTRY_OPTIONS : list Member.MemberOption)
  (name : string) :
  exists o, Member.nameToMemberOption COUNTRY_OPTIONS name = Some o /\
    Member.text o = name /\
    ((exists l1 l2, COUNTRY_OPTIONS = l1 ++ o :: l2 /\
        Forall (fun c => Member.text c <> name) l1) \/
     ((forall c, c ∈ COUNTRY_OPTIONS -> Member.text c <> name) /\
      Member.key o = name /\ Member.value o = name /\ Member.flag o = "fm")).
Proof.
  unfold Member.nameToMemberOption.
  destruct (decide (name ∈ Member.FLAG_NAME_SET COUNTRY_OPTIONS)) as [Hin|Hout].
  - rewrite bool_decide_eq_true_2 by done.
    apply FLAG_NAME_SET_elem in Hin as (c & Hc & Htext).
    destruct (head (filter (fun c => Member.text c = name) COUNTRY_OPTIONS))
      as [o|] eqn:Ho.
    + apply head_filter_Some in Ho as (l1 & l2 & Hl & Hx & Hall).
      exists o. split; [done|]. split; [done|]. left. by exists l1, l2.
    + exfalso. by apply (proj1 (head_filter_None _ _) Ho c).
  - rewrite bool_decide_eq_false_2 by done.
    eexists. split; [reflexivity|]. split; [reflexivity|]. right.
    split; [|done]. intros c Hc Htext. apply Hout.
    apply FLAG_NAME_SET_elem. by exists c.
Qed.

(** For a name outside the table the flag of the option is the flag
    [parseFlagName] gives; for a name of the table it is the flag the
    table holds, whatever [parseFlagName] computes from the name. *)
Theorem nameToMemberOption_flag (COUNTRY_OPTIONS : list Member.MemberOption)
  (toLowerCase : string -> string) (name : string) (o : Member.MemberOption) :
  Member.nameToMemberOption COUNTRY_OPTIONS name = Some o ->
  (o ∈ COUNTRY_OPTIONS /\
   Member.parseFlagName COUNTRY_OPTIONS toLowerCase name = toLowerCase name) \/
  (Member.flag o = Member.parseFlagName COUNTRY_OPTIONS toLowerCase name /\
   Member.flag o = "fm").
Proof.
  unfold Member.nameToMemberOption, Member.parseFlagName.
  destruct (bool_decide (name ∈ Member.FLAG_NAME_SET COUNTRY_OPTIONS)).
  - intros [Ho _]%head_filter_elem. by left.
  - intros [= <-]. by right.
Qed.

Lemma nameToMemberOption_flag_witness :
  Member.nameToMemberOption Samples.country_options "Atlantis"
  = Some {| Member.key := "Atlantis"; Member.value := "Atlantis";
            Member.flag := "fm"; Member.text := "Atlantis" |} /\
  Member.parseFlagName Samples.country_options Samples.ascii_toLowerCase "Atlantis" = "fm".
Proof.
  assert (Member.nameToMemberOption Samples.country_options "Atlantis"
          = Some {| Member.key := "Atlantis"; Member.value := "Atlantis";
                    Member.flag := "fm"; Member.text := "Atlantis" |}) as H
    by (vm_compute; reflexivity).
  split; [exact H|].
  destruct (nameToMemberOption_flag Samples.country_options
              Samples.ascii_toLowerCase "Atlantis" _ H) as [[Hin _] | [Hflag Hfm]].
  - exfalso. revert Hin. vm_compute. intros Hin.
    repeat (apply elem_of_cons in Hin as [Hin|Hin]; [discriminate Hin|]).
    by apply elem_of_nil in Hin.
  - by rewrite <- Hflag.
Defined.

Example nameToMemberOption_samples :
  Member.nameToMemberOption Samples.country_options "Germany" = Some Samples.option_germany /\
  Member.nameToMemberOption [] "Germany"
  = Some {| Member.key := "Germany"; Member.value := "Germany";
            Member.flag := "fm"; Member.text := "Germany" |}.
Proof. split; vm_compute; reflexivity. Qed.

(** ** CaucusQueuer: the cookie nation among the options *)

Lemma getIdOfCookieNation_Some (n : option Member.MemberData)
  (ms : list Member.MemberOption) (k : string) :
  CaucusQueuer.getIdOfCookieNation n (Some ms) = Some k <->
  exists m l1 o l2, n = Some m /\ ms = l1 ++ o :: l2 /\
    Member.text o = Member.name m /\ Member.key o = k /\
    Forall (fun c => Member.text c <> Member.name m) l1.
Proof.
  unfold CaucusQueuer.getIdOfCookieNation. destruct n as [m|].
  - split.
    + destruct (head _) as [o|] eqn:Ho; [|done]. intros [= <-].
      apply head_filter_Some in Ho as (l1 & l2 & Hl & Ht & Hall).
      by exists m, l1, o, l2.
    + intros (m' & l1 & o & l2 & [= <-] & Hl & Ht & Hk & Hall).
      assert (head (filter (fun element => Member.text element = Member.name m) ms)
              = Some o) as ->.
      { apply head_filter_Some. by exists l1, l2. }
      simpl. by rewrite Hk.
  - split; [done|]. by intros (m' & l1 & o & l2 & Hn & _).
Qed.

Lemma getIdOfCookieNation_None (n : option Member.MemberData)
  (ms : list Member.MemberOption) :
  CaucusQueuer.getIdOfCookieNation n (Some ms) = None <->
  n = None \/
  exists m, n = Some m /\ forall o, o ∈ ms -> Member.text o <> Member.name m.
Proof.
  unfold CaucusQueuer.getIdOfCookieNation. destruct n as [m|].
  - rewrite fmap_None, head_filter_None. split.
    + intros Hno. right. by exists m.
    + intros [Hn | (m' & [= <-] & Hno)]; done.
  - split; [by left | done].
Qed.

(** [getIdOfCookieNation] returns the key of the first option whose text is
    the member's name, and null exactly when the member is null, the
    options are missing, or no option has that text. *)
Theorem getIdOfCookieNation_first_match (n : option Member.MemberData)
  (ms : list Member.MemberOption) :
  (forall k, CaucusQueuer.getIdOfCookieNation n (Some ms) = Some k <->
     exists m l1 o l2, n = Some m /\ ms = l1 ++ o :: l2 /\
       Member.text o = Member.name m /\ Member.key o = k /\
       Forall (fun c => Member.text c <> Member.name m) l1) /\
  (CaucusQueuer.getIdOfCookieNation n (Some ms) = None <->
     n = None \/
     exists m, n = Some m /\ forall o, o ∈ ms -> Member.text o <> Member.name m) /\
  CaucusQueuer.getIdOfCookieNation n None = None.
Proof.
  split; [|split].
  - intros k. apply getIdOfCookieNation_Some.
  - apply getIdOfCookieNation_None.
  - by destruct n.
Qed.

Lemma head_filter_NoDup {A B : Type} `{EqDecision B} (f : A -> B) (l : list A) (x : A) :
  NoDup (f <$> l) -> x ∈ l ->
  head (filter (fun c => f c = f x) l) = Some x.
Proof.
  intros Hnd (l1 & l2 & ->)%list_elem_of_split.
  apply head_filter_Some. exists l1, l2. split; [done|]. split; [done|].
  rewrite fmap_app, fmap_cons in Hnd.
  apply NoDup_app in Hnd as (_ & Hdisj & _).
  apply Forall_forall. intros y Hy Heq.
  apply (Hdisj (f y)).
  - apply list_elem_of_fmap. by exists y.
  - rewrite Heq. left.
Qed.

Section QueuerComponent.

Variable getCookie : string -> Js.value.
Variable getID : gmap string Member.MemberData -> Js.value -> string.
Variable T : Unit -> bool.
Variable toString : Js.number -> string.

Lemma CaucusQueuer_returns (memberOptions : list Member.MemberOption)
  (props : CaucusQueuer.Props) (queueMember : option Member.MemberOption)
  (v : CaucusQueuer.View) (u : option (option Member.MemberOption)) :
  CaucusQueuer.CaucusQueuer getCookie getID T toString memberOptions props queueMember
  = Js.Returned (v, u) ->
  exists cookieNation,
    CaucusQueuer.getNation getCookie getID props = Js.Returned cookieNation /\
    CaucusQueuer.disableButtons v
    = negb (bool_decide (is_Some queueMember))
      || negb (bool_decide (is_Some (Caucus.recoverDuration (CaucusQueuer.caucus props)))) /\
    u = match queueMember with
        | None =>
            match CaucusQueuer.getIdOfCookieNation cookieNation (Some memberOptions) with
            | Some k =>
                if Js.ToBoolean (Js.str k)
                then Some (CaucusQueuer.setMemberManual memberOptions k)
                else None
            | None => None
            end
        | Some _ => None
        end.
Proof.
  unfold CaucusQueuer.CaucusQueuer.
  destruct (CaucusQueuer.getNation getCookie getID props) as [cookieNation|e|k];
    [|done|done].
  intros [= <- <-]. exists cookieNation. split; [done|]. split; [|done]. simpl.
  f_equal. f_equal.
  destruct (Caucus.recoverDuration (CaucusQueuer.caucus props)) as [d|] eqn:Hd.
  - apply recoverDuration_Some in Hd as (c & _ & _ & ->).
    symmetry. apply bool_decide_eq_true_2. by eexists.
  - symmetry. apply bool_decide_eq_false_2. by intros [? ?].
Qed.

(** The stance buttons are disabled exactly when pressing one would write
    nothing: whenever the component renders, [disableButtons] is true if and
    only if [setStance] issues no write, for every stance. *)
Theorem buttons_disabled_iff_setStance_idle
  (memberOptions : list Member.MemberOption) (props : CaucusQueuer.Props)
  (queueMember : option Member.MemberOption)
  (v : CaucusQueuer.View) (u : option (option Member.MemberOption)) (stance : Stance) :
  CaucusQueuer.CaucusQueuer getCookie getID T toString memberOptions props queueMember
  = Js.Returned (v, u) ->
  (CaucusQueuer.disableButtons v = true <->
   CaucusQueuer.setStance T props queueMember stance = []).
Proof.
  intros (cookieNation & _ & -> & _)%CaucusQueuer_returns.
  destruct queueMember as [qm|].
  - destruct (Caucus.recoverDuration (CaucusQueuer.caucus props)) as [d|] eqn:Hd.
    + rewrite (setStance_push T props qm stance d Hd).
      rewrite bool_decide_eq_true_2 by by eexists.
      rewrite bool_decide_eq_true_2 by by eexists.
      done.
    + rewrite (setStance_no_duration T props (Some qm) stance Hd).
      rewrite (bool_decide_eq_false_2 (is_Some None)) by by intros [? ?].
      by rewrite orb_true_r.
  - rewrite setStance_no_member.
    rewrite bool_decide_eq_false_2 by by intros [? ?].
    done.
Qed.


(** When every option's key is its value and is not empty, and no two
    options share a value, a component with nothing selected preselects the
    first option that bears the name of the member [getNation] returned,
    provided there is one. *)
Theorem CaucusQueuer_preselects_cookie_nation
  (memberOptions : list Member.MemberOption) (props : CaucusQueuer.Props)
  (v : CaucusQueuer.View) (u : option (option Member.MemberOption))
  (m : Member.MemberData) (o : Member.MemberOption) :
  Forall (fun c => Member.key c = Member.value c /\ Member.key c <> "") memberOptions ->
  NoDup (Member.value <$> memberOptions) ->
  CaucusQueuer.getNation getCookie getID props = Js.Returned (Some m) ->
  o ∈ memberOptions -> Member.text o = Member.name m ->
  CaucusQueuer.CaucusQueuer getCookie getID T toString memberOptions props None
  = Js.Returned (v, u) ->
  exists l1 o' l2, u = Some (Some o') /\ memberOptions = l1 ++ o' :: l2 /\
    Member.text o' = Member.name m /\
    Forall (fun c => Member.text c <> Member.name m) l1.
Proof.
  intros Hkv Hnd Hn Ho Ht (cookieNation & Hn' & _ & ->)%CaucusQueuer_returns.
  rewrite Hn in Hn'. injection Hn' as <-.
  destruct (CaucusQueuer.getIdOfCookieNation (Some m) (Some memberOptions))
    as [k|] eqn:Hk.
  2:{ apply getIdOfCookieNation_None in Hk as [? | (m' & [= <-] & Hno)]; [done|].
      by destruct (Hno o Ho). }
  apply getIdOfCookieNation_Some in Hk
    as (m' & l1 & o1 & l2 & [= <-] & Hl & Ht1 & Hk1 & Hfirst).
  assert (o1 ∈ memberOptions) as Ho1.
  { rewrite Hl. apply elem_of_app. right. left. }
  destruct (proj1 (Forall_forall _ _) Hkv o1 Ho1) as [Hkey Hne].
  exists l1, o1, l2. split; [|done].
  simpl. rewrite bool_decide_eq_false_2 by (by rewrite <- Hk1). simpl.
  unfold CaucusQueuer.setMemberManual.
  rewrite <- Hk1, Hkey. f_equal. by apply head_filter_NoDup.
Qed.

End QueuerComponent.

Lemma CaucusQueuer_preselects_cookie_nation_witness :
  exists l1 o' l2,
    (CaucusQueuer.CaucusQueuer Samples.cookies_france Samples.getID_by_name
       Samples.truthy_members Samples.toString_sample Samples.member_options
       (Samples.props_of (Some Samples.caucus_two_minutes) (Some Samples.members_fr_de))
       None)
    = Js.Returned
        ({| CaucusQueuer.dropdownValue := None;
            CaucusQueuer.loading := false;
            CaucusQueuer.dropdownError := true;
            CaucusQueuer.unitValue := Minutes;
            CaucusQueuer.durationValue := Some "2";
            CaucusQueuer.indeterminate := false;
            CaucusQueuer.checked := false;
            CaucusQueuer.disableButtons := true |}, Some (Some o')) /\
    Samples.member_options = l1 ++ o' :: l2 /\
    Member.text o' = "France".
Proof.
  assert (CaucusQueuer.CaucusQueuer Samples.cookies_france Samples.getID_by_name
       Samples.truthy_members Samples.toString_sample Samples.member_options
       (Samples.props_of (Some Samples.caucus_two_minutes) (Some Samples.members_fr_de))
       None
    = Js.Returned
        ({| CaucusQueuer.dropdownValue := None;
            CaucusQueuer.loading := false;
            CaucusQueuer.dropdownError := true;
            CaucusQueuer.unitValue := Minutes;
            CaucusQueuer.durationValue := Some "2";
            CaucusQueuer.indeterminate := false;
            CaucusQueuer.checked := false;
            CaucusQueuer.disableButtons := true |}, Some (Some Samples.option_france)))
    as Hrun by (vm_compute; reflexivity).
  assert (Forall (fun c => Member.key c = Member.value c /\ Member.key c <> "")
            Samples.member_options) as Hkv by (repeat constructor; done).
  assert (NoDup (Member.value <$> Samples.member_options)) as Hnd
    by (apply (bool_decide_unpack _); vm_compute; exact I).
  assert (CaucusQueuer.getNation Samples.cookies_france Samples.getID_by_name
            (Samples.props_of (Some Samples.caucus_two_minutes)
               (Some Samples.members_fr_de))
          = Js.Returned (Some (Samples.member "France" (Some "s3cret")))) as Hn
    by (vm_compute; reflexivity).
  assert (Samples.option_france ∈ Samples.member_options) as Ho by (right; left).
  destruct (CaucusQueuer_preselects_cookie_nation _ _ _ _ _ _ _ _ _ _
              Hkv Hnd Hn Ho eq_refl Hrun)
    as (l1 & o' & l2 & Hu & Hl & Ht & _).
  injection Hu as <-. exists l1, Samples.option_france, l2.
  split; [exact Hrun | split; [exact Hl | reflexivity]].
Defined.

Lemma buttons_disabled_iff_setStance_idle_witness :
  exists v u,
    CaucusQueuer.CaucusQueuer Samples.cookies_none Samples.getID_by_name
      Samples.truthy_members Samples.toString_sample Samples.member_options
      (Samples.props_of (Some Samples.caucus_two_minutes) (Some Samples.members_fr_de))
      (Some Samples.option_france)
    = Js.Returned (v, u) /\
    (CaucusQueuer.disableButtons v = true <->
     CaucusQueuer.setStance Samples.truthy_members
       (Samples.props_of (Some Samples.caucus_two_minutes) (Some Samples.members_fr_de))
       (Some Samples.option_france) For = []).
Proof.
  destruct (CaucusQueuer.CaucusQueuer Samples.cookies_none Samples.getID_by_name
      Samples.truthy_members Samples.toString_sample Samples.member_options
      (Samples.props_of (Some Samples.caucus_two_minutes) (Some Samples.members_fr_de))
      (Some Samples.option_france)) as [[v u]|e|k] eqn:Hrun.
  - exists v, u. split; [reflexivity|].
    exact (buttons_disabled_iff_setStance_idle _ _ _ _ _ _ _ _ _ For Hrun).
  - vm_compute in Hrun. discriminate Hrun.
  - vm_compute in Hrun. discriminate Hrun.
Defined.


Example CaucusQueuer_samples :
  CaucusQueuer.CaucusQueuer Samples.cookies_france Samples.getID_by_name
    Samples.truthy_members Samples.toString_sample Samples.member_options
    (Samples.props_of None (Some Samples.members_de)) None
  = Js.Threw Js.TypeError /\
  CaucusQueuer.CaucusQueuer Samples.cookies_none Samples.getID_by_name
    Samples.truthy_members Samples.toString_sample Samples.member_options
    (Samples.props_of None None) None
  = Js.Returned
      ({| CaucusQueuer.dropdownValue := None;
          CaucusQueuer.loading := true;
          CaucusQueuer.dropdownError := true;
          CaucusQueuer.unitValue := Seconds;
          CaucusQueuer.durationValue := None;
          CaucusQueuer.indeterminate := true;
          CaucusQueuer.checked := false;
          CaucusQueuer.disableButtons := true |}, None).
Proof. split; vm_compute; reflexivity. Qed.

(** ** Login: the state over sequences of events *)

Lemma step_committees (st : Auth.State) (e : Auth.Event) :
  Auth.committees (Auth.step st e)
  = match e with
    | Auth.CommitteesLoaded val => Some (default ∅ val)
    | _ => Auth.committees st
    end.
Proof.
  destruct e; try reflexivity. by destruct u.
Qed.

Lemma step_user (st : Auth.State) (e : Auth.Event) :
  Auth.user (Auth.step st e)
  = match e with
    | Auth.AuthStateChanged u => Some u
    | _ => Auth.user st
    end.
Proof. destruct e; try reflexivity. by destruct u. Qed.

Lemma step_error (st : Auth.State) (e : Auth.Event) :
  Auth.error (Auth.step st e)
  = match e with
    | Auth.LoginRejected err | Auth.CreateAccountRejected err
    | Auth.ResetPasswordRejected err | Auth.LogoutRejected err => Some err
    | Auth.DismissError => None
    | _ => Auth.error st
    end.
Proof. destruct e; try reflexivity. by destruct u. Qed.

Lemma run_snoc (es : list Auth.Event) (e : Auth.Event) (st : Auth.State) :
  Auth.run (es ++ [e]) st = Auth.step (Auth.run es st) e.
Proof. unfold Auth.run. by rewrite foldl_app. Qed.

Lemma run_user_defined (es : list Auth.Event) :
  is_Some (Auth.user (Auth.run es Auth.initial_state)) <->
  exists u, Auth.AuthStateChanged u ∈ es.
Proof.
  induction es as [|e es IH] using rev_ind.
  - split; [by intros [? ?] | intros [u Hu]; by apply elem_of_nil in Hu].
  - rewrite run_snoc, step_user. split.
    + intros Hs. destruct e;
        try (apply IH in Hs as [u' Hu']; exists u'; apply elem_of_app; by left).
      eexists. apply elem_of_app. right. left.
    + intros [u' Hu']. apply elem_of_app in Hu' as [Hu' | Hu'].
      * destruct e; try (apply IH; by exists u'). by eexists.
      * apply list_elem_of_singleton in Hu' as <-. by eexists.
Qed.

Lemma run_committees_defined (es : list Auth.Event) :
  is_Some (Auth.committees (Auth.run es Auth.initial_state)) <->
  exists val, Auth.CommitteesLoaded val ∈ es.
Proof.
  induction es as [|e es IH] using rev_ind.
  - split; [by intros [? ?] | intros [u Hu]; by apply elem_of_nil in Hu].
  - rewrite run_snoc, step_committees. split.
    + intros Hs. destruct e;
        try (apply IH in Hs as [v' Hv']; exists v'; apply elem_of_app; by left).
      eexists. apply elem_of_app. right. left.
    + intros [v' Hv']. apply elem_of_app in Hv' as [Hv' | Hv'].
      * destruct e; try (apply IH; by exists v'). by eexists.
      * apply list_elem_of_singleton in Hv' as <-. by eexists.
Qed.

(** From the state the constructor sets, [committees] is defined exactly
    when a committees query has resolved, and [user] exactly when an auth
    callback has been received; neither ever becomes undefined again. So
    the login form shows as loading only before the first auth callback. *)
Theorem Login_loaded_iff (es : list Auth.Event) :
  (is_Some (Auth.committees (Auth.run es Auth.initial_state)) <->
   exists val, Auth.CommitteesLoaded val ∈ es) /\
  (is_Some (Auth.user (Auth.run es Auth.initial_state)) <->
   exists u, Auth.AuthStateChanged u ∈ es) /\
  (Auth.form_loading (Auth.renderLogin (Auth.run es Auth.initial_state)) = true <->
   forall u, Auth.AuthStateChanged u ∉ es).
Proof.
  split; [apply run_committees_defined|]. split; [apply run_user_defined|].
  unfold Auth.renderLogin. simpl. rewrite bool_decide_eq_true. split.
  - intros Hnone u Hu.
    assert (is_Some (Auth.user (Auth.run es Auth.initial_state))) as [x Hx]
      by (apply run_user_defined; by exists u).
    by rewrite Hnone in Hx.
  - intros Hno. destruct (Auth.user (Auth.run es Auth.initial_state)) eqn:Hu; [|done].
    assert (exists u, Auth.AuthStateChanged u ∈ es) as [u' Hu']
      by (apply run_user_defined; by eexists).
    by destruct (Hno u').
Qed.

Lemma run_error_kept (es : list Auth.Event) (st : Auth.State) :
  Auth.DismissError ∉ es ->
  is_Some (Auth.error st) -> is_Some (Auth.error (Auth.run es st)).
Proof.
  induction es as [|e es IH] using rev_ind; [done|].
  intros Hno Hst. rewrite run_snoc, step_error.
  assert (is_Some (Auth.error (Auth.run es st))) as Hrun.
  { apply IH; [|done]. intros Hin. apply Hno, elem_of_app. by left. }
  destruct e; try done; try by eexists.
  exfalso. apply Hno, elem_of_app. right. left.
Qed.

(** An error stays in the state, and the form stays marked as in error,
    until [dismissError] is called: no other handler and no settled promise
    clears it, a later success included. *)
Theorem Login_error_until_dismissed (es : list Auth.Event) (st : Auth.State) :
  Auth.DismissError ∉ es ->
  is_Some (Auth.error st) ->
  is_Some (Auth.error (Auth.run es st)) /\
  Auth.form_error (Auth.renderLogin (Auth.run es st)) = true.
Proof.
  intros Hno Hst. pose proof (run_error_kept es st Hno Hst) as Hrun.
  split; [done|]. unfold Auth.renderLogin. simpl. by apply bool_decide_eq_true.
Qed.

Lemma Login_error_until_dismissed_witness :
  (Auth.DismissError ∉ [Auth.LoginCalled; Auth.LoginFulfilled]) /\
  is_Some (Auth.error
             (Auth.login_catch {| Auth.name := Some "auth/wrong-password";
                                  Auth.message := Some "The password is invalid" |}
                Auth.initial_state)) /\
  is_Some (Auth.error
             (Auth.run [Auth.LoginCalled; Auth.LoginFulfilled]
                (Auth.login_catch {| Auth.name := Some "auth/wrong-password";
                                     Auth.message := Some "The password is invalid" |}
                   Auth.initial_state))).
Proof.
  assert (Auth.DismissError ∉ [Auth.LoginCalled; Auth.LoginFulfilled]) as Hno.
  { intros Hin. apply elem_of_cons in Hin as [Hin|Hin]; [discriminate Hin|].
    apply elem_of_cons in Hin as [Hin|Hin]; [discriminate Hin|].
    by apply elem_of_nil in Hin. }
  assert (is_Some (Auth.error
             (Auth.login_catch {| Auth.name := Some "auth/wrong-password";
                                  Auth.message := Some "The password is invalid" |}
                Auth.initial_state))) as Herr by (by eexists).
  split; [exact Hno|]. split; [exact Herr|].
  exact (proj1 (Login_error_until_dismissed _ _ Hno Herr)).
Defined.

(** ** Login: what is rendered *)

(** [authStateChangedCallback] leaves [committees] as it is. After a
    sign-out and the sign-in of another user, and until that user's query
    resolves, the card of the new user lists the committees loaded for the
    previous one. *)
Theorem Login_committees_survive_account_switch
  (allowNewCommittee : option bool) (st : Auth.State) (u : Firebase.User)
  (cs : gmap string Committee.CommitteeData) :
  Auth.committees st = Some cs ->
  Auth.committees
    (Auth.run [Auth.AuthStateChanged None; Auth.AuthStateChanged (Some u)] st) = Some cs /\
  (Auth.render allowNewCommittee
     (Auth.run [Auth.AuthStateChanged None; Auth.AuthStateChanged (Some u)] st)).2
  = Auth.LoggedIn
      {| Auth.card_header := Firebase.email u;
         Auth.card_committees := Auth.CommitteeList (Auth.renderCommittees st);
         Auth.card_create := default false allowNewCommittee |}.
Proof.
  intros Hcs. split; [exact Hcs|].
  unfold Auth.render, Auth.renderLoggedIn, Auth.renderCommittees. simpl.
  by rewrite Hcs.
Qed.

Lemma Login_committees_survive_account_switch_witness :
  Auth.committees
    (Auth.authStateChanged_resolved Samples.db_ada (Some Samples.user_ada)
       Auth.initial_state) = Some Samples.committees_ada /\
  Auth.committees
    (Auth.run [Auth.AuthStateChanged None; Auth.AuthStateChanged (Some Samples.user_bob)]
       (Auth.authStateChanged_resolved Samples.db_ada (Some Samples.user_ada)
          Auth.initial_state)) = Some Samples.committees_ada.
Proof.
  assert (Auth.committees
    (Auth.authStateChanged_resolved Samples.db_ada (Some Samples.user_ada)
       Auth.initial_state) = Some Samples.committees_ada) as H by reflexivity.
  split; [exact H|].
  exact (proj1 (Login_committees_survive_account_switch None _ Samples.user_bob _ H)).
Defined.

(** Whenever a user is signed in and [committees] is defined (once a
    committees query has resolved, whatever else has happened before or
    since), [render] shows no notice and the card of that user with the list
    [renderCommittees] builds, never the loader; the section for creating a
    committee shows exactly when [allowNewCommittee] is true. *)
Theorem Login_resolved_shows_committees (allowNewCommittee : option bool)
  (st : Auth.State) (u : Firebase.User) :
  Auth.user st = Some (Some u) ->
  is_Some (Auth.committees st) ->
  Auth.render allowNewCommittee st
  = (None,
     Auth.LoggedIn
       {| Auth.card_header := Firebase.email u;
          Auth.card_committees := Auth.CommitteeList (Auth.renderCommittees st);
          Auth.card_create := default false allowNewCommittee |}).
Proof.
  intros Hu [cs Hcs].
  unfold Auth.render, Auth.renderNotice, Auth.renderLoggedIn.
  by rewrite Hu, Hcs.
Qed.

Lemma Login_resolved_shows_committees_witness :
  Auth.user
    (Auth.run [Auth.AuthStateChanged (Some Samples.user_ada); Auth.SetEmail "x";
               Auth.CommitteesLoaded (Some Samples.committees_ada);
               Auth.LogoutRejected {| Auth.name := None; Auth.message := None |}]
       Auth.initial_state) = Some (Some Samples.user_ada) /\
  is_Some (Auth.committees
    (Auth.run [Auth.AuthStateChanged (Some Samples.user_ada); Auth.SetEmail "x";
               Auth.CommitteesLoaded (Some Samples.committees_ada);
               Auth.LogoutRejected {| Auth.name := None; Auth.message := None |}]
       Auth.initial_state)) /\
  (Auth.render (Some true)
    (Auth.run [Auth.AuthStateChanged (Some Samples.user_ada); Auth.SetEmail "x";
               Auth.CommitteesLoaded (Some Samples.committees_ada);
               Auth.LogoutRejected {| Auth.name := None; Auth.message := None |}]
       Auth.initial_state)).1 = None.
Proof.
  split; [reflexivity|]. split; [by eexists|].
  rewrite (Login_resolved_shows_committees (Some true) _ Samples.user_ada);
    [reflexivity | reflexivity | by eexists].
Defined.

(** The list of committees has one item for each committee of the state,
    under that committee's key, linking to [/committees/<key>]; no two
    items have the same key; and there is no item while [committees] is
    undefined or empty. *)
Theorem renderCommittees_items (st : Auth.State) :
  (forall item, item ∈ Auth.renderCommittees st <->
     exists cs k c, Auth.committees st = Some cs /\ cs !! k = Some c /\
       item = {| Auth.item_key := k;
                 Auth.item_href := "/committees/" +:+ k;
                 Auth.item_name := Committee.name c;
                 Auth.item_topic := Committee.topic c |}) /\
  NoDup (Auth.item_key <$> Auth.renderCommittees st) /\
  length (Auth.renderCommittees st) = size (default ∅ (Auth.committees st)).
Proof.
  unfold Auth.renderCommittees. split; [|split].
  - intros item. rewrite list_elem_of_fmap. split.
    + intros ([k c] & -> & Hin). apply elem_of_map_to_list in Hin.
      destruct (Auth.committees st) as [cs|]; simpl in Hin.
      * by exists cs, k, c.
      * by rewrite lookup_empty in Hin.
    + intros (cs & k & c & -> & Hlk & ->). exists (k, c). split; [done|].
      by apply elem_of_map_to_list.
  - rewrite <- list_fmap_compose.
    apply (NoDup_fmap_fst (map_to_list (default ∅ (Auth.committees st)))).
    + intros k c1 c2 H1%elem_of_map_to_list H2%elem_of_map_to_list. congruence.
    + apply NoDup_map_to_list.
  - by rewrite length_fmap, length_map_to_list.
Qed.

Ltac elem_cases H :=
  repeat (apply elem_of_cons in H as [H|H]; [try discriminate H|]);
  try (by apply elem_of_nil in H).

Lemma ToBoolean_str_false (s : string) :
  negb (Js.ToBoolean (Js.str s)) = false <-> s <> "".
Proof.
  simpl. rewrite negb_involutive. split.
  - by intros ?%bool_decide_eq_false.
  - intros Hne. by apply bool_decide_eq_false.
Qed.

(** A submit button is rendered enabled only in its own mode and only when
    the fields it sends are filled in: email and password for "Log in" and
    "Create account", email for "Send reset email". *)
Theorem Login_enabled_submit_has_input (st : Auth.State) (l : bool) :
  (Auth.LogInButton false l ∈ Auth.form_children (Auth.renderLogin st) ->
   Auth.mode st = Auth.Login /\ Auth.email st <> "" /\ Auth.password st <> "") /\
  (Auth.RealCreateAccountButton false l ∈ Auth.form_children (Auth.renderLogin st) ->
   Auth.mode st = Auth.CreateAccount /\ Auth.email st <> "" /\ Auth.password st <> "") /\
  (Auth.SendResetEmailButton false l ∈ Auth.form_children (Auth.renderLogin st) ->
   Auth.mode st = Auth.ForgotPassword /\ Auth.email st <> "").
Proof.
  unfold Auth.renderLogin, Auth.is_mode, Auth.renderSuccess, Auth.renderError.
  cbn [Auth.form_children].
  destruct (Auth.mode st), (Auth.success st), (Auth.error st);
    cbn [Auth.when negb app]; (split; [|split]); intros H; elem_cases H;
    injection H as Hd _; symmetry in Hd;
    first [ apply orb_false_elim in Hd as [Hd1 Hd2];
            split; [done | split; apply ToBoolean_str_false; assumption]
          | split; [done | apply ToBoolean_str_false; assumption] ].
Qed.

(** Each of the three mode switches empties the password and keeps the
    email, the user, the messages and the committees; the form rendered
    next has its "Log in" or "Create account" button disabled. *)
Theorem Login_mode_switch_clears_password (st : Auth.State) :
  Forall (fun st' =>
      Auth.password st' = "" /\ Auth.email st' = Auth.email st /\
      Auth.user st' = Auth.user st /\ Auth.error st' = Auth.error st /\
      Auth.success st' = Auth.success st /\ Auth.committees st' = Auth.committees st /\
      forall d l,
        Auth.LogInButton d l ∈ Auth.form_children (Auth.renderLogin st') \/
        Auth.RealCreateAccountButton d l ∈ Auth.form_children (Auth.renderLogin st') ->
        d = true)
    [Auth.toLoginMode st; Auth.toCreateAccountMode st; Auth.toForgotPasswordMode st] /\
  Auth.mode (Auth.toLoginMode st) = Auth.Login /\
  Auth.mode (Auth.toCreateAccountMode st) = Auth.CreateAccount /\
  Auth.mode (Auth.toForgotPasswordMode st) = Auth.ForgotPassword.
Proof.
  split; [|done].
  repeat apply Forall_cons_2; [..|apply Forall_nil_2];
    (do 6 (split; [reflexivity|])); intros d l;
    unfold Auth.renderLogin, Auth.is_mode, Auth.renderSuccess, Auth.renderError;
    cbn [Auth.form_children Auth.mode Auth.toLoginMode Auth.toCreateAccountMode
         Auth.toForgotPasswordMode Auth.set_mode Auth.set_password Auth.password
         Auth.email Auth.success Auth.error Auth.when negb app];
    destruct (Auth.success st), (Auth.error st);
    intros [H|H]; elem_cases H; injection H as -> _; simpl; apply orb_true_r.
Qed.

(** ** Caucus: the state over sequences of events *)

Section CaucusEvents.

Variable isOwner : option Committee.CommitteeData -> Firebase.User -> bool.
Variable batched : bool.

Lemma Caucus_step_loading (st : CaucusComponent.State) (e : CaucusView.Event) :
  CaucusComponent.loading (CaucusView.step isOwner batched st e)
  = match e with
    | CaucusView.Snapshot (Some _) _ => false
    | _ => CaucusComponent.loading st
    end.
Proof. destruct e as [[val|] [u|]| |]; reflexivity. Qed.

Lemma Caucus_step_committee (st : CaucusComponent.State) (e : CaucusView.Event) :
  CaucusComponent.committee (CaucusView.step isOwner batched st e)
  = match e with
    | CaucusView.Snapshot (Some val) _ => val
    | _ => CaucusComponent.committee st
    end.
Proof. destruct e as [[val|] [u|]| |]; reflexivity. Qed.

Lemma Caucus_step_fref (st : CaucusComponent.State) (e : CaucusView.Event) :
  CaucusComponent.committeeFref (CaucusView.step isOwner batched st e)
  = CaucusComponent.committeeFref st.
Proof. destruct e as [[val|] [u|]| |]; reflexivity. Qed.

Lemma Caucus_run_snoc (es : list CaucusView.Event) (e : CaucusView.Event)
  (st : CaucusComponent.State) :
  CaucusView.run isOwner batched (es ++ [e]) st
  = CaucusView.step isOwner batched (CaucusView.run isOwner batched es st) e.
Proof. unfold CaucusView.run. by rewrite foldl_app. Qed.

Lemma Caucus_run_fref (es : list CaucusView.Event) (st : CaucusComponent.State) :
  CaucusComponent.committeeFref (CaucusView.run isOwner batched es st)
  = CaucusComponent.committeeFref st.
Proof.
  induction es as [|e es IH] using rev_ind; [done|].
  by rewrite Caucus_run_snoc, Caucus_step_fref.
Qed.

Lemma Caucus_run_snapshots (es : list CaucusView.Event) (st : CaucusComponent.State) :
  match last (CaucusView.snapshot_values es) with
  | Some val =>
      CaucusComponent.loading (CaucusView.run isOwner batched es st) = false /\
      CaucusComponent.committee (CaucusView.run isOwner batched es st) = val
  | None =>
      CaucusComponent.loading (CaucusView.run isOwner batched es st)
      = CaucusComponent.loading st /\
      CaucusComponent.committee (CaucusView.run isOwner batched es st)
      = CaucusComponent.committee st
  end.
Proof.
  induction es as [|e es IH] using rev_ind; [done|].
  unfold CaucusView.snapshot_values in *.
  rewrite omap_app, Caucus_run_snoc, Caucus_step_loading, Caucus_step_committee.
  destruct e as [[val|] u| |]; simpl; rewrite ?app_nil_r; try exact IH.
  by rewrite last_snoc.
Qed.

(** The component shows the NotFound view exactly when a snapshot has
    arrived and the committee of the latest snapshot has no caucus under
    the requested id, as [recoverCaucus] finds it; before the first
    snapshot it never does. Timer changes and the user signed in make no
    difference. *)
Theorem Caucus_not_found_iff
  (recoverCaucus : option Committee.CommitteeData -> string -> option Caucus.CaucusData)
  (DEFAULT_TIMER : Timer.TimerData) (committeeID caucusID : string)
  (es : list CaucusView.Event) :
  CaucusComponent.render recoverCaucus
    (CaucusView.run isOwner batched es (CaucusView.initial_state DEFAULT_TIMER committeeID))
    caucusID
  = CaucusComponent.NotFound "caucus" caucusID
  <-> exists val, last (CaucusView.snapshot_values es) = Some val /\
        recoverCaucus val caucusID = None.
Proof.
  pose proof (Caucus_run_snapshots es
                (CaucusView.initial_state DEFAULT_TIMER committeeID)) as Hrun.
  destruct (last (CaucusView.snapshot_values es)) as [val|].
  - destruct Hrun as [Hl Hc]. split.
    + intros Hr. exists val. split; [done|].
      destruct (recoverCaucus val caucusID) as [x|] eqn:Hx; [|done].
      rewrite render_caucus with (x := x) in Hr by (by rewrite Hc). done.
    + intros (val' & [= <-] & Hx). apply render_no_caucus; [done | by rewrite Hc].
  - destruct Hrun as [Hl _]. split.
    + intros Hr. rewrite render_loading in Hr by (by rewrite Hl). done.
    + by intros (val & Hval & _).
Qed.

End CaucusEvents.

Example Caucus_not_found_samples :
  CaucusComponent.render Committee.recoverCaucus
    (CaucusView.run Samples.isOwner_ada false
       [CaucusView.SpeakerTimerChanged Samples.timer]
       (CaucusView.initial_state Samples.timer "-C1")) "-K1"
  <> CaucusComponent.NotFound "caucus" "-K1" /\
  CaucusComponent.render Committee.recoverCaucus
    (CaucusView.run Samples.isOwner_ada false
       [CaucusView.Snapshot (Some None) None]
       (CaucusView.initial_state Samples.timer "-C1")) "-K1"
  = CaucusComponent.NotFound "caucus" "-K1".
Proof. split; [vm_compute; discriminate | vm_compute; reflexivity]. Qed.

(** ** Caucus: the page *)

Lemma string_app_inj_l (p a b : string) : p +:+ a = p +:+ b -> a = b.
Proof.
  induction p as [|c p IH]; simpl; [done|].
  intros [= H]. by apply IH.
Qed.

Section CaucusPage.

Variable T : Unit -> bool.
Variable recoverMembers :
  option Committee.CommitteeData -> option (gmap string Member.MemberData).
Variable recoverSettings : option Committee.CommitteeData -> CaucusView.Settings.

(** Whatever the settings, the two columns of the page hold each of the
    five panels exactly once; the two timers share the second column when
    the timers are not in separate columns, and otherwise the speaker timer
    heads the first column and the caucus timer the second. *)
Theorem renderCaucus_each_panel_once (st : CaucusComponent.State) (caucusID : string)
  (caucus : option Caucus.CaucusData) (k : CaucusView.PanelKind) :
  length (filter (fun p => CaucusView.kind p = k)
            ((CaucusView.page_columns
                (CaucusView.renderCaucus T recoverMembers recoverSettings
                   st caucusID caucus)).1
             ++ (CaucusView.page_columns
                   (CaucusView.renderCaucus T recoverMembers recoverSettings
                      st caucusID caucus)).2)) = 1 /\
  CaucusView.kind
    <$> (CaucusView.page_columns
           (CaucusView.renderCaucus T recoverMembers recoverSettings st caucusID caucus)).2
  = (if CaucusView.timersInSeparateColumns (recoverSettings (CaucusComponent.committee st))
     then [CaucusView.IsCaucusTimer; CaucusView.IsQueuer]
     else [CaucusView.IsSpeakerTimer; CaucusView.IsCaucusTimer]).
Proof.
  unfold CaucusView.renderCaucus. cbn [CaucusView.page_columns].
  destruct (recoverSettings (CaucusComponent.committee st)) as [a [|] [|]];
    destruct k; split; reflexivity.
Qed.

(** The speaker timer's default duration is never 0 and never NaN: it is
    the duration recovered from the caucus when there is one, and 60
    otherwise. The two timers never share a database path, a key or a
    toggle key. *)
Theorem renderCaucus_timers (st : CaucusComponent.State) (caucusID : string)
  (caucus : option Caucus.CaucusData) :
  Js.ToBoolean_number
    (CaucusView.defaultDuration (CaucusView.renderedSpeakerTimer T st caucusID caucus))
  = true /\
  CaucusView.defaultDuration (CaucusView.renderedSpeakerTimer T st caucusID caucus)
  = default 60%float (Caucus.recoverDuration caucus) /\
  CaucusView.timerFref (CaucusView.renderedSpeakerTimer T st caucusID caucus)
  <> CaucusView.timerFref (CaucusView.renderedCaucusTimer st caucusID) /\
  CaucusView.timer_key (CaucusView.renderedSpeakerTimer T st caucusID caucus)
  <> CaucusView.timer_key (CaucusView.renderedCaucusTimer st caucusID) /\
  CaucusView.toggleKeyCode (CaucusView.renderedSpeakerTimer T st caucusID caucus)
  <> CaucusView.toggleKeyCode (CaucusView.renderedCaucusTimer st caucusID).
Proof.
  assert (CaucusView.defaultDuration
            (CaucusView.renderedSpeakerTimer T st caucusID caucus)
          = default 60%float (Caucus.recoverDuration caucus)) as Hd.
  { simpl. destruct (Caucus.recoverDuration caucus) as [d|] eqn:Hr; [|done].
    by apply recoverDuration_Some in Hr as (c & _ & _ & ->). }
  split; [|split; [exact Hd|split; [|split]]].
  - rewrite Hd. destruct (Caucus.recoverDuration caucus) as [d|] eqn:Hr; [|done].
    by apply recoverDuration_Some in Hr as (c & _ & _ & ?).
  - simpl. intros H%app_inv_head. discriminate H.
  - simpl. intros H%string_app_inj_l. discriminate H.
  - simpl. discriminate.
Qed.

(** The queue the queuer writes to is the queue of the caucus shown: for
    the state after any events since the constructor, every write a stance
    button issues through the properties [renderCaucus] gives the queuer is
    a push under committees/<committeeID>/caucuses/<caucusID>/queue. *)
Theorem Caucus_queue_path
  (isOwner : option Committee.CommitteeData -> Firebase.User -> bool) (batched : bool)
  (DEFAULT_TIMER : Timer.TimerData) (committeeID caucusID : string)
  (es : list CaucusView.Event) (caucus : option Caucus.CaucusData)
  (queueMember : option Member.MemberOption) (stance : Stance) :
  Forall (fun w => exists ev,
            w = Firebase.PushSet
                  ["committees"; committeeID; "caucuses"; caucusID; "queue"] ev)
    (CaucusQueuer.setStance T
       (CaucusView.renderedCaucusQueuer recoverMembers
          (CaucusView.run isOwner batched es
             (CaucusView.initial_state DEFAULT_TIMER committeeID))
          caucusID caucus)
       queueMember stance).
Proof.
  unfold CaucusQueuer.setStance.
  destruct (Js.ToBoolean_number _); [|constructor].
  destruct queueMember as [qm|]; [|constructor].
  constructor; [|constructor]. eexists. f_equal.
  cbn [CaucusQueuer.caucusFref CaucusView.renderedCaucusQueuer].
  unfold CaucusView.recoverCaucusFref. by rewrite Caucus_run_fref.
Qed.

End CaucusPage.

Example renderCaucus_sample :
  CaucusView.kind
    <$> (CaucusView.page_columns
           (CaucusView.renderCaucus Samples.truthy_members
              (fun c => c ≫= Committee.members) Samples.settings_default
              (CaucusView.initial_state Samples.timer "-C1") "-K1" None)).1
  = [CaucusView.IsNowSpeaking; CaucusView.IsNextSpeaking; CaucusView.IsQueuer] /\
  CaucusView.page_title
    (CaucusView.renderCaucus Samples.truthy_members
       (fun c => c ≫= Committee.members) Samples.settings_default
       (CaucusView.initial_state Samples.timer "-C1") "-K1" None)
  = "undefined - Muncoordinated".
Proof. split; reflexivity. Qed.
